(** * pkg/kube/handler.go: the HTTP controller of a kube entity

    A shallow embedding of the handlers [getTasks], [deleteKube], [addNode]
    and [deleteNode] and of the helpers [getKubeTasks] and
    [deleteClusterTasks], with the properties of the task listing, of the
    cascading clean-up and of the error paths.

    The handler talks to its collaborators (kube service, account service,
    node provisioner, task repository, log-writer factory, task engine)
    through Go interfaces.  Every method call on one of them is a [Call]
    here, a handler is a program over calls ([Prog]), and an execution pairs
    a program with an environment that answers the calls.  What a handler
    "issues" is read off the trace of its execution. *)

From Stdlib Require Import ZArith.
From stdpp Require Import base option list strings gmap.

Open Scope string_scope.
Open Scope list_scope.
Open Scope Z_scope.

(** ** Go error values: [errors] (github.com/pkg/errors) and [sgerrors] *)

Module errors.

(** An error is a sentinel, a fresh message, or another error wrapped with
    a message.  [ErrNotFound] is the sentinel of [sgerrors]; it is its own
    constructor because Go compares it by identity. *)
Inductive error : Type :=
| ErrNotFound
| New (msg : string)
| withMessage (cause : error) (msg : string).

(** errors.Wrap(err, msg) *)
Definition Wrap (err : error) (msg : string) : error := withMessage err msg.

(** errors.Cause(err): the innermost error. *)
Fixpoint Cause (err : error) : error :=
  match err with
  | withMessage cause _ => Cause cause
  | _ => err
  end.

(** err.Error().  The text of the sentinel is not fixed by handler.go. *)
Fixpoint Error (err : error) : string :=
  match err with
  | ErrNotFound => "not found"
  | New msg => msg
  | withMessage cause msg => msg +:+ ": " +:+ Error cause
  end.

(** sgerrors.IsNotFound(err): errors.Cause(err) == ErrNotFound *)
Definition IsNotFound (err : error) : bool :=
  match Cause err with
  | ErrNotFound => true
  | _ => false
  end.

(** A Go result pair [(v, err)] in which exactly one side is set. *)
Inductive result (A : Type) : Type :=
| Ok (v : A)
| Err (err : error).
Arguments Ok {A} v.
Arguments Err {A} err.

End errors.
Export errors.

(** ** net/http: the response writer, as httptest.ResponseRecorder sees it *)

Module http.

Definition StatusAccepted : Z := 202.
Definition StatusBadRequest : Z := 400.
Definition StatusNotFound : Z := 404.
Definition StatusMethodNotAllowed : Z := 405.
Definition StatusInternalServerError : Z := 500.

(** The status line and the body; the header map is not modelled. *)
Record ResponseRecorder : Type := mkRecorder {
  Code : Z;
  wroteHeader : bool;
  Body : string
}.

Definition NewRecorder : ResponseRecorder :=
  {| Code := 200; wroteHeader := false; Body := "" |}.

(** w.WriteHeader(code): only the first call sets the status. *)
Definition WriteHeader (w : ResponseRecorder) (code : Z) : ResponseRecorder :=
  if wroteHeader w then w
  else {| Code := code; wroteHeader := true; Body := Body w |}.

(** w.Write(buf): an implicit WriteHeader(200) when none was written. *)
Definition Write (w : ResponseRecorder) (buf : string) : ResponseRecorder :=
  let w' := WriteHeader w 200 in
  {| Code := Code w'; wroteHeader := true; Body := Body w' +:+ buf |}.

Definition newline : string := String (Ascii.ascii_of_nat 10) "".

(** http.Error(w, msg, code): WriteHeader(code); Fprintln(w, msg) *)
Definition Error (w : ResponseRecorder) (msg : string) (code : Z)
  : ResponseRecorder :=
  Write (WriteHeader w code) (msg +:+ newline).

(** http.NotFound(w, r) *)
Definition NotFound (w : ResponseRecorder) : ResponseRecorder :=
  Error w "404 page not found" StatusNotFound.

(** mux.Vars(r) and r.Body *)
Record Request : Type := mkRequest {
  Vars : gmap string string;
  ReqBody : string
}.

End http.

(** ** The data the handler works on

    The declarations of these packages are not part of handler.go; each
    record has the fields handler.go reads or writes. *)

Module node.
Record Node : Type := mkNode { Name : string }.
End node.

Module model.

Record Networking : Type := mkNetworking {
  Type_ : string;
  CIDR : string;
  Version : string
}.

Record Kube : Type := mkKube {
  Name : string;
  AccountName : string;
  Region : string;
  Arch : string;
  OperatingSystem : string;
  OperatingSystemVersion : string;
  DockerVersion : string;
  K8SVersion : string;
  HelmVersion : string;
  Networking_ : Networking;
  RBACEnabled : bool;
  Masters : gmap string node.Node;
  Nodes : gmap string node.Node
}.

(** [k.Nodes = nodes], every other field kept. *)
Definition withNodes (k : Kube) (nodes : gmap string node.Node) : Kube :=
  {| Name := Name k; AccountName := AccountName k; Region := Region k;
     Arch := Arch k; OperatingSystem := OperatingSystem k;
     OperatingSystemVersion := OperatingSystemVersion k;
     DockerVersion := DockerVersion k; K8SVersion := K8SVersion k;
     HelmVersion := HelmVersion k; Networking_ := Networking_ k;
     RBACEnabled := RBACEnabled k; Masters := Masters k; Nodes := nodes |}.

Record CloudAccount : Type := mkCloudAccount {
  AccName : string;
  Provider : string;
  Credentials : gmap string string
}.

End model.

Module profile.

Definition NodeProfile : Type := gmap string string.

Record Profile : Type := mkProfile {
  Provider : string;
  Region : string;
  Arch : string;
  OperatingSystem : string;
  UbuntuVersion : string;
  DockerVersion : string;
  K8SVersion : string;
  HelmVersion : string;
  NetworkType : string;
  CIDR : string;
  FlannelVersion : string;
  NodesProfiles : list NodeProfile;
  RBACEnabled : bool
}.

End profile.

Module steps.

(** Modelled from the spec: steps.Status, the states of a task and of its
    steps (pending, running, success, failure, skipped). *)
Inductive Status : Type :=
| StatusPending | StatusRunning | StatusSuccess | StatusFailure | StatusSkipped.

(** Modelled from the spec: steps.Config, the snapshot a task runs against:
    target cluster name, cloud-account name, resolved credentials and, for
    node-scoped workflows, the node. *)
Record Config : Type := mkConfig {
  ClusterName : string;
  CloudAccountName : string;
  Credentials : gmap string string;
  Node : node.Node
}.

End steps.

Module workflows.

(** Modelled from the spec: workflows.StepStatus, one entry per step of the
    resolved workflow. *)
Record StepStatus : Type := mkStepStatus {
  StepName : string;
  StepState : steps.Status;
  ErrMsg : string
}.

(** workflows.Task, with the fields handler.go reads. *)
Record Task : Type := mkTask {
  ID : string;
  Type_ : string;
  Status : steps.Status;
  StepStatuses : list StepStatus;
  Config : option steps.Config
}.

(** workflows.WorkflowSet; the zero value has both kinds empty. *)
Record WorkflowSet : Type := mkWorkflowSet {
  DeleteCluster : string;
  DeleteNode : string
}.

Definition zeroWorkflowSet : WorkflowSet :=
  {| DeleteCluster := ""; DeleteNode := "" |}.

End workflows.

(** ** Programs over the collaborators' interfaces *)

(** An io.WriteCloser and a chan error, as opaque handles. *)
Definition Writer : Type := string.
Definition ErrChan : Type := string.

Inductive LogLevel : Type := LogError | LogWarn | LogInfo.

(** One constructor per method the handler calls on a collaborator. *)
Inductive Call : Type :=
(* kube.Interface, field svc *)
| SvcCreate (k : model.Kube)
| SvcGet (name : string)
| SvcDelete (name : string)
(* accountGetter, field accountService *)
| AccountGet (name : string)
(* nodeProvisioner *)
| ProvisionNodes (nodeProfiles : list profile.NodeProfile) (k : model.Kube)
                 (config : steps.Config)
(* storage.Interface, field repo *)
| RepoGetAll (prefix : string)
| RepoPut (prefix key : string) (value : string)
| RepoDelete (prefix key : string)
(* field getWriter *)
| GetWriter (id : string)
(* the task engine *)
| NewID
| TaskRun (t : workflows.Task) (config : steps.Config) (out : Writer)
(* util.GetRandomNode *)
| GetRandomNode (nodes : gmap string node.Node)
(* logrus *)
| Logf (level : LogLevel) (msg : string).

(** What each call returns. *)
Definition Ans (c : Call) : Type :=
  match c with
  | SvcCreate _ => option error
  | SvcGet _ => result model.Kube
  | SvcDelete _ => option error
  | AccountGet _ => result model.CloudAccount
  | ProvisionNodes _ _ _ => result (list string)
  | RepoGetAll _ => result (list string)
  | RepoPut _ _ _ => option error
  | RepoDelete _ _ => option error
  | GetWriter _ => result Writer
  | NewID => string
  | TaskRun _ _ _ => ErrChan
  | GetRandomNode _ => option node.Node
  | Logf _ _ => unit
  end.

Inductive Prog (A : Type) : Type :=
| Ret (a : A)
| Do (c : Call) (k : Ans c → Prog A).
Arguments Ret {A} a.
Arguments Do {A} c k.

Fixpoint bind {A B : Type} (p : Prog A) (f : A → Prog B) : Prog B :=
  match p with
  | Ret a => f a
  | Do c k => Do c (λ x, bind (k x) f)
  end.

Definition call (c : Call) : Prog (Ans c) := Do c Ret.

Notation "x <- p ;; q" := (bind p (λ x, q))
  (at level 100, p at next level, right associativity).
Notation "p ;;; q" := (bind p (λ _, q))
  (at level 100, right associativity).

(** [for _, x := range l { body x }] *)
Fixpoint forRange {A : Type} (l : list A) (body : A → Prog unit) : Prog unit :=
  match l with
  | [] => Ret tt
  | x :: rest => body x ;;; forRange rest body
  end.

(** ** Executions *)

(** A call together with its answer. *)
Definition Event : Type := { c : Call & Ans c }.
Definition event (c : Call) (a : Ans c) : Event := existT c a.
Definition callOf (ev : Event) : Call := projT1 ev.

(** The error an answer carries, if any. *)
Definition failure (ev : Event) : option error :=
  match ev with
  | existT c a =>
      match c return Ans c → option error with
      | SvcCreate _ | SvcDelete _ | RepoPut _ _ _ | RepoDelete _ _ => λ a, a
      | SvcGet _ => λ a, match a with Ok _ => None | Err e => Some e end
      | AccountGet _ => λ a, match a with Ok _ => None | Err e => Some e end
      | ProvisionNodes _ _ _ =>
          λ a, match a with Ok _ => None | Err e => Some e end
      | RepoGetAll _ => λ a, match a with Ok _ => None | Err e => Some e end
      | GetWriter _ => λ a, match a with Ok _ => None | Err e => Some e end
      | NewID | TaskRun _ _ _ | GetRandomNode _ | Logf _ _ => λ _, None
      end a
  end.

Section Execution.

(** The state of everything outside the handler, and how it answers. *)
Context {W : Type}.
Variable env : ∀ c : Call, W → Ans c * W.

Record Outcome (A : Type) : Type := mkOutcome {
  value : A;
  world : W;
  trace : list Event
}.
Arguments mkOutcome {A} value world trace.
Arguments value {A} o.
Arguments world {A} o.
Arguments trace {A} o.

Fixpoint exec {A : Type} (p : Prog A) (w : W) : Outcome A :=
  match p with
  | Ret a => mkOutcome a w []
  | Do c k =>
      let '(x, w1) := env c w in
      let o := exec (k x) w1 in
      mkOutcome (value o) (world o) (event c x :: trace o)
  end.

End Execution.

Arguments mkOutcome {W A} value world trace.
Arguments value {W A} o.
Arguments world {W A} o.
Arguments trace {W A} o.

(** ** The handler *)

Module kube.

(** The DTO [getTasks] encodes. *)
Record taskDTO : Type := mkTaskDTO {
  dtoID : string;
  dtoType : string;
  dtoStatus : steps.Status;
  dtoStepStatuses : list workflows.StepStatus
}.

(** A goroutine that waits on a task's completion channel and then runs
    [body] on what it received; [body] returns what the goroutine leaves
    behind in the objects it captured. *)
Record Goroutine (S : Type) : Type := mkGoroutine {
  awaits : ErrChan;
  body : option error → Prog S
}.
Arguments mkGoroutine {S} awaits body.
Arguments awaits {S} g.
Arguments body {S} g.

(** The Handler struct.  Its interface-typed fields svc, accountService,
    nodeProvisioner and repo and its func field getWriter are the
    environment of an execution; the workflow map is data. *)
Record Handler : Type := mkHandler {
  workflowMap : gmap string workflows.WorkflowSet
}.

Section Handler.

(** Constants of packages outside handler.go. *)
Variable Prefix : string.                     (* workflows.Prefix *)
Variable DigitalOcean : string.               (* clouds.DigitalOcean *)
Variable DigitalOceanDeleteCluster : string.  (* workflows *)
Variable DigitalOceanDeleteNode : string.     (* workflows *)

(** encoding/json at the types this file uses it at. *)
Variable unmarshalTask : string → result workflows.Task.
Variable marshalTask : workflows.Task → string.
Variable decodeNodeProfiles : string → result (list profile.NodeProfile).
Variable encodeTaskDTOs : list taskDTO → result string.
Variable encodeStrings : list string → result string.

(** message.SendNotFound, message.SendUnknownError *)
Variable SendNotFound :
  http.ResponseRecorder → string → error → http.ResponseRecorder.
Variable SendUnknownError :
  http.ResponseRecorder → error → http.ResponseRecorder.

(** steps.NewConfig, the AddMaster method of steps.Config,
    util.FillCloudAccountCredentials (which writes into the config it is
    given and returns an error) *)
Variable NewConfig : string → string → string → profile.Profile → steps.Config.
Variable AddMaster : steps.Config → option node.Node → steps.Config.
Variable FillCloudAccountCredentials :
  model.CloudAccount → steps.Config → steps.Config * option error.

(** The workflow registry: workflow kind to ordered step names. *)
Variable registry : gmap string (list string).

Definition NewHandler : Handler :=
  {| workflowMap :=
       {[ DigitalOcean :=
            {| workflows.DeleteCluster := DigitalOceanDeleteCluster;
               workflows.DeleteNode := DigitalOceanDeleteNode |} ]} |}.

(** [h.workflowMap[provider]]: a missing key reads as the zero value. *)
Definition workflowSetOf (h : Handler) (provider : string)
  : workflows.WorkflowSet :=
  default workflows.zeroWorkflowSet (workflowMap h !! provider).

(** Modelled from the spec: workflows.NewTask (the engine's [create]),
    whose package is not part of handler.go.  It resolves the workflow
    kind to its step list, NotFound when the kind is unregistered,
    allocates a task with every step pending, persists the record and
    returns it. *)
Definition NewTask (taskType : string) : Prog (result workflows.Task) :=
  match registry !! taskType with
  | None => Ret (Err ErrNotFound)
  | Some stepNames =>
      id <- call NewID;;
      let t :=
        {| workflows.ID := id;
           workflows.Type_ := taskType;
           workflows.Status := steps.StatusPending;
           workflows.StepStatuses :=
             (λ name, workflows.mkStepStatus name steps.StatusPending "")
               <$> stepNames;
           workflows.Config := None |} in
      call (RepoPut Prefix id (marshalTask t));;;
      Ret (Ok t)
  end.

(** *** getKubeTasks *)

(** [task != nil && task.Config != nil && task.Config.ClusterName == kubeName];
    [task] is a fresh [&workflows.Task{}], never nil. *)
Definition inCluster (kubeName : string) (task : workflows.Task) : bool :=
  match workflows.Config task with
  | Some config => bool_decide (steps.ClusterName config = kubeName)
  | None => false
  end.

(** The loop over [data], with [tasks] the slice built so far. *)
Fixpoint rangeData (kubeName : string) (data : list string)
         (tasks : list workflows.Task) : result (list workflows.Task) :=
  match data with
  | [] => Ok tasks
  | v :: rest =>
      match unmarshalTask v with
      | Err err => Err (Wrap err "unmarshal task data")
      | Ok task =>
          if inCluster kubeName task
          then rangeData kubeName rest (tasks ++ [task])
          else rangeData kubeName rest tasks
      end
  end.

Definition getKubeTasks (h : Handler) (kubeName : string)
  : Prog (result (list workflows.Task)) :=
  r <- call (RepoGetAll Prefix);;
  match r with
  | Err err => Ret (Err (Wrap err "get cluster tasks"))
  | Ok data => Ret (rangeData kubeName data [])
  end.

(** *** deleteClusterTasks *)

Definition deleteClusterTasks (h : Handler) (clusterName : string)
  : Prog (option error) :=
  r <- getKubeTasks h clusterName;;
  match r with
  | Err err =>
      Ret (Some (Wrap err ("delete cluster " +:+ clusterName +:+ " tasks")))
  | Ok tasks =>
      forRange tasks (λ task,
        r <- call (RepoDelete Prefix (workflows.ID task));;
        match r with
        | Some err =>
            call (Logf LogWarn
              ("delete task " +:+ workflows.ID task +:+ ": " +:+ Error err))
        | None => Ret tt
        end);;;
      Ret None
  end.

(** *** getTasks *)

Definition toDTO (task : workflows.Task) : taskDTO :=
  {| dtoID := workflows.ID task;
     dtoType := workflows.Type_ task;
     dtoStatus := workflows.Status task;
     dtoStepStatuses := workflows.StepStatuses task |}.

(** From [if len(tasks) == 0] to the end of getTasks. *)
Definition respondTasks (w : http.ResponseRecorder)
           (tasks : list workflows.Task) : http.ResponseRecorder :=
  if bool_decide (length tasks = 0%nat)
  then http.Error w "" http.StatusNotFound
  else
    let resp := toDTO <$> tasks in
    match encodeTaskDTOs resp with
    | Ok buf => http.Write w buf
    | Err err => http.Error w (Error err) http.StatusInternalServerError
    end.

Definition getTasks (h : Handler) (r : http.Request)
           (w : http.ResponseRecorder) : Prog http.ResponseRecorder :=
  match http.Vars r !! "kname" with
  | None => Ret (http.Error w "need name of a cluster" http.StatusBadRequest)
  | Some id =>
      res <- getKubeTasks h id;;
      match res with
      | Err err =>
          if IsNotFound err then Ret (SendNotFound w id err)
          else
            (* no return after SendUnknownError; tasks is nil here *)
            Ret (respondTasks (SendUnknownError w err) [])
      | Ok tasks => Ret (respondTasks w tasks)
      end
  end.

(** *** deleteKube *)

(** The goroutine of deleteKube, from [err := <-errChan] on. *)
Definition deleteKubeCompletion (h : Handler) (kname : string)
           (err : option error) : Prog unit :=
  match err with
  | Some _ => Ret tt
  | None =>
      r <- call (SvcDelete kname);;
      match r with
      | Some err =>
          call (Logf LogError
            ("delete kube " +:+ kname +:+ " caused " +:+ Error err))
      | None => deleteClusterTasks h kname;;; Ret tt
      end
  end.

(** What every handler does with an error of a collaborator when it
    answers NotFound with http.NotFound. *)
Definition notFoundOrUnknown (w : http.ResponseRecorder) (err : error)
  : http.ResponseRecorder :=
  if IsNotFound err then http.NotFound w else SendUnknownError w err.

Definition deleteKube (h : Handler) (r : http.Request)
           (w : http.ResponseRecorder)
  : Prog (http.ResponseRecorder * option (Goroutine unit)) :=
  let kname := default "" (http.Vars r !! "kname") in
  rk <- call (SvcGet kname);;
  match rk with
  | Err err =>
      if IsNotFound err then Ret (SendNotFound w kname err, None)
      else Ret (SendUnknownError w err, None)
  | Ok k =>
  ra <- call (AccountGet (model.AccountName k));;
  match ra with
  | Err err => Ret (notFoundOrUnknown w err, None)
  | Ok acc =>
  rt <- NewTask (workflows.DeleteCluster
                   (workflowSetOf h (model.Provider acc)));;
  match rt with
  | Err err => Ret (notFoundOrUnknown w err, None)
  | Ok t =>
  let config :=
    {| steps.ClusterName := model.Name k;
       steps.CloudAccountName := model.AccountName k;
       steps.Credentials := ∅;
       steps.Node := node.mkNode "" |} in
  let '(config, err) := FillCloudAccountCredentials acc config in
  match err with
  | Some err => Ret (notFoundOrUnknown w err, None)
  | None =>
  rw <- call (GetWriter (workflows.ID t));;
  match rw with
  | Err err => Ret (SendUnknownError w err, None)
  | Ok writer =>
  errChan <- call (TaskRun t config writer);;
  Ret (http.WriteHeader w http.StatusAccepted,
       Some (mkGoroutine errChan (deleteKubeCompletion h kname)))
  end end end end end.

(** *** addNode *)

Definition addNode (h : Handler) (r : http.Request)
           (w : http.ResponseRecorder) : Prog http.ResponseRecorder :=
  let kname := default "" (http.Vars r !! "kname") in
  rk <- call (SvcGet kname);;
  match rk with
  | Err err =>
      if IsNotFound err then Ret (http.NotFound w)
      else Ret (http.Error w (Error err) http.StatusInternalServerError)
  | Ok k =>
  match decodeNodeProfiles (http.ReqBody r) with
  | Err err => Ret (http.Error w (Error err) http.StatusBadRequest)
  | Ok nodeProfiles =>
  ra <- call (AccountGet (model.AccountName k));;
  match ra with
  | Err err =>
      if IsNotFound err then Ret (http.NotFound w)
      else Ret (http.Error w (Error err) http.StatusInternalServerError)
  | Ok acc =>
  let kubeProfile :=
    {| profile.Provider := model.Provider acc;
       profile.Region := model.Region k;
       profile.Arch := model.Arch k;
       profile.OperatingSystem := model.OperatingSystem k;
       profile.UbuntuVersion := model.OperatingSystemVersion k;
       profile.DockerVersion := model.DockerVersion k;
       profile.K8SVersion := model.K8SVersion k;
       profile.HelmVersion := model.HelmVersion k;
       profile.NetworkType := model.Type_ (model.Networking_ k);
       profile.CIDR := model.CIDR (model.Networking_ k);
       profile.FlannelVersion := model.Version (model.Networking_ k);
       profile.NodesProfiles := [∅];
       profile.RBACEnabled := model.RBACEnabled k |} in
  let config := NewConfig (model.Name k) "" (model.AccountName k) kubeProfile in
  if bool_decide (size (model.Masters k) ≠ 0%nat) then
    master <- call (GetRandomNode (model.Masters k));;
    let config := AddMaster config master in
    let '(config, err) := FillCloudAccountCredentials acc config in
    match err with
    | Some err =>
        Ret (http.Error w (Error err) http.StatusInternalServerError)
    | None =>
    rp <- call (ProvisionNodes nodeProfiles k config);;
    match rp with
    | Err err =>
        if IsNotFound err
        then Ret (http.Error w (Error err) http.StatusNotFound)
        else Ret (http.Error w (Error err) http.StatusInternalServerError)
    | Ok tasks =>
        let w := http.WriteHeader w http.StatusAccepted in
        match encodeStrings tasks with
        | Ok buf => Ret (http.Write w buf)
        | Err err =>
            let w := http.Error w (Error err) http.StatusInternalServerError in
            call (Logf LogError ("marshal json: " +:+ Error err));;;
            Ret w
        end
    end end
  else Ret (http.Error w "no master found" http.StatusNotFound)
  end end end.

(** *** deleteNode *)

(** The goroutine of deleteNode, from [err := <-errChan] on.  It shares
    the kube object [k] with the handler; the result is that object as
    the goroutine leaves it. *)
Definition deleteNodeCompletion (h : Handler) (k : model.Kube)
           (kname nodeName : string) (err : option error) : Prog model.Kube :=
  match err with
  | Some err =>
      call (Logf LogError
        ("delete node " +:+ nodeName +:+ " from cluster " +:+ kname
           +:+ " caused " +:+ Error err))
  | None => Ret tt
  end;;;
  let k := model.withNodes k (delete nodeName (model.Nodes k)) in
  call (Logf LogInfo
    ("delete node " +:+ nodeName +:+ " from cluster " +:+ kname));;;
  err <- call (SvcCreate k);;
  match err with
  | Some err =>
      call (Logf LogError
        ("update cluster " +:+ kname +:+ " caused " +:+ Error err))
  | None => Ret tt
  end;;;
  Ret k.

Definition deleteNode (h : Handler) (r : http.Request)
           (w : http.ResponseRecorder)
  : Prog (http.ResponseRecorder * option (Goroutine model.Kube)) :=
  let kname := default "" (http.Vars r !! "kname") in
  let nodeName := default "" (http.Vars r !! "nodename") in
  rk <- call (SvcGet kname);;
  match rk with
  | Err err =>
      if IsNotFound err then Ret (SendNotFound w kname err, None)
      else Ret (SendUnknownError w err, None)
  | Ok k =>
  if bool_decide (is_Some (model.Masters k !! nodeName)) then
    Ret (http.Error w "delete master node not allowed"
           http.StatusMethodNotAllowed, None)
  else if negb (bool_decide (is_Some (model.Nodes k !! nodeName))) then
    Ret (http.NotFound w, None)
  else
  ra <- call (AccountGet (model.AccountName k));;
  match ra with
  | Err err => Ret (notFoundOrUnknown w err, None)
  | Ok acc =>
  rt <- NewTask (workflows.DeleteNode
                   (workflowSetOf h (model.Provider acc)));;
  match rt with
  | Err err => Ret (notFoundOrUnknown w err, None)
  | Ok t =>
  let config :=
    {| steps.ClusterName := model.Name k;
       steps.CloudAccountName := model.AccountName k;
       steps.Credentials := ∅;
       steps.Node := node.mkNode nodeName |} in
  let '(config, err) := FillCloudAccountCredentials acc config in
  match err with
  | Some err => Ret (notFoundOrUnknown w err, None)
  | None =>
  rw <- call (GetWriter (workflows.ID t));;
  match rw with
  | Err err => Ret (SendUnknownError w err, None)
  | Ok writer =>
  errChan <- call (TaskRun t config writer);;
  Ret (http.WriteHeader w http.StatusAccepted,
       Some (mkGoroutine errChan (deleteNodeCompletion h k kname nodeName)))
  end end end end end.

End Handler.

End kube.

(** ** An in-memory environment

    The collaborators as the package's tests would fake them: maps for the
    kube and account services, a key-ordered list of records for the
    repository, canned answers for the provisioner and the writer factory,
    and a task engine that only records what it was asked to run. *)

Module inmem.

Record World : Type := mkWorld {
  kubes : gmap string model.Kube;
  accounts : gmap string model.CloudAccount;
  records : list (string * string * string);   (* prefix, key, value *)
  provisioner : result (list string);
  writerFails : option error;
  freshIDs : list string;
  running : list (workflows.Task * steps.Config * Writer);
  logged : list (LogLevel * string)
}.

Definition setKubes (w : World) (m : gmap string model.Kube) : World :=
  {| kubes := m; accounts := accounts w; records := records w;
     provisioner := provisioner w; writerFails := writerFails w;
     freshIDs := freshIDs w; running := running w; logged := logged w |}.

Definition setRecords (w : World) (l : list (string * string * string)) : World :=
  {| kubes := kubes w; accounts := accounts w; records := l;
     provisioner := provisioner w; writerFails := writerFails w;
     freshIDs := freshIDs w; running := running w; logged := logged w |}.

Definition setFreshIDs (w : World) (l : list string) : World :=
  {| kubes := kubes w; accounts := accounts w; records := records w;
     provisioner := provisioner w; writerFails := writerFails w;
     freshIDs := l; running := running w; logged := logged w |}.

Definition addRunning (w : World) (r : workflows.Task * steps.Config * Writer)
  : World :=
  {| kubes := kubes w; accounts := accounts w; records := records w;
     provisioner := provisioner w; writerFails := writerFails w;
     freshIDs := freshIDs w; running := running w ++ [r]; logged := logged w |}.

Definition addLogged (w : World) (e : LogLevel * string) : World :=
  {| kubes := kubes w; accounts := accounts w; records := records w;
     provisioner := provisioner w; writerFails := writerFails w;
     freshIDs := freshIDs w; running := running w; logged := logged w ++ [e] |}.

Definition isKey (prefix key : string) (r : string * string * string) : bool :=
  bool_decide (r.1.1 = prefix) && bool_decide (r.1.2 = key).

Definition lookupOr {A : Type} (m : gmap string A) (name : string) : result A :=
  match m !! name with
  | Some v => Ok v
  | None => Err ErrNotFound
  end.

Definition env (c : Call) (w : World) : Ans c * World :=
  match c return Ans c * World with
  | SvcCreate k => (None, setKubes w (<[model.Name k := k]> (kubes w)))
  | SvcGet name => (lookupOr (kubes w) name, w)
  | SvcDelete name =>
      match kubes w !! name with
      | Some _ => (None, setKubes w (delete name (kubes w)))
      | None => (Some ErrNotFound, w)
      end
  | AccountGet name => (lookupOr (accounts w) name, w)
  | ProvisionNodes _ _ _ => (provisioner w, w)
  | RepoGetAll prefix =>
      (Ok (snd <$> List.filter (λ r, bool_decide (r.1.1 = prefix)) (records w)), w)
  | RepoPut prefix key v =>
      (None,
       setRecords w
         (List.filter (λ r, negb (isKey prefix key r)) (records w)
            ++ [(prefix, key, v)]))
  | RepoDelete prefix key =>
      if existsb (isKey prefix key) (records w)
      then (None,
            setRecords w (List.filter (λ r, negb (isKey prefix key r)) (records w)))
      else (Some ErrNotFound, w)
  | GetWriter id =>
      match writerFails w with
      | Some err => (Err err, w)
      | None => (Ok ("log/" +:+ id), w)
      end
  | NewID => (default "" (head (freshIDs w)), setFreshIDs w (tail (freshIDs w)))
  | TaskRun t config out =>
      ("done/" +:+ workflows.ID t, addRunning w (t, config, out))
  | GetRandomNode nodes => (snd <$> head (map_to_list nodes), w)
  | Logf level msg => (tt, addLogged w (level, msg))
  end.

(** json.Unmarshal into a task, given as the table of the records that
    decode; every other record is rejected. *)
Fixpoint unmarshalFrom (table : list (string * workflows.Task)) (v : string)
  : result workflows.Task :=
  match table with
  | [] => Err (New "invalid character")
  | (v', task) :: rest =>
      if bool_decide (v' = v) then Ok task else unmarshalFrom rest v
  end.

(** Sample data. *)

Definition Prefix : string := "/supergiant/tasks/".

Definition configOf (cluster : string) : steps.Config :=
  {| steps.ClusterName := cluster; steps.CloudAccountName := "acc";
     steps.Credentials := ∅; steps.Node := node.mkNode "" |}.

Definition taskOf (id cluster : string) : workflows.Task :=
  {| workflows.ID := id; workflows.Type_ := "DeleteNode";
     workflows.Status := steps.StatusSuccess; workflows.StepStatuses := [];
     workflows.Config := Some (configOf cluster) |}.

Definition sampleTable : list (string * workflows.Task) :=
  [("rec-a1", taskOf "a1" "alpha");
   ("rec-b1", taskOf "b1" "beta");
   ("rec-a2", taskOf "a2" "alpha")].

Definition sampleKube : model.Kube :=
  {| model.Name := "alpha"; model.AccountName := "acc";
     model.Region := "fra1"; model.Arch := "amd64";
     model.OperatingSystem := "linux"; model.OperatingSystemVersion := "16.04";
     model.DockerVersion := "17.06"; model.K8SVersion := "1.11";
     model.HelmVersion := "2.8";
     model.Networking_ := model.mkNetworking "flannel" "10.0.0.0/24" "0.10";
     model.RBACEnabled := true;
     model.Masters := {[ "m1" := node.mkNode "m1" ]};
     model.Nodes := {[ "n1" := node.mkNode "n1"; "n2" := node.mkNode "n2" ]} |}.

Definition sampleAccount (provider : string) : model.CloudAccount :=
  {| model.AccName := "acc"; model.Provider := provider;
     model.Credentials := ∅ |}.

Definition emptyWorld : World :=
  {| kubes := ∅; accounts := ∅; records := []; provisioner := Ok [];
     writerFails := None; freshIDs := []; running := []; logged := [] |}.

(** A world with cluster alpha, its account at the given provider, and the
    given task records under [Prefix]. *)
Definition sampleWorld (provider : string) (recs : list (string * string)) : World :=
  {| kubes := {[ "alpha" := sampleKube ]};
     accounts := {[ "acc" := sampleAccount provider ]};
     records := (λ r, (Prefix, r.1, r.2)) <$> recs;
     provisioner := Ok ["t1"; "t2"];
     writerFails := None;
     freshIDs := ["t1"; "t2"; "t3"];
     running := [];
     logged := [] |}.

(** Three records that decode, two of cluster alpha and one of beta. *)
Definition sampleRecords : list (string * string) :=
  [("a1", "rec-a1"); ("b1", "rec-b1"); ("a2", "rec-a2")].

(** A record of cluster alpha beside one that does not decode. *)
Definition corruptRecords : list (string * string) :=
  [("a1", "rec-a1"); ("x9", "garbage")].

Definition unmarshalTask : string → result workflows.Task :=
  unmarshalFrom sampleTable.

Definition marshalTask (t : workflows.Task) : string :=
  "rec-" +:+ workflows.ID t.

Definition decodeNodeProfiles (body : string)
  : result (list profile.NodeProfile) :=
  if bool_decide (body = "") then Err (New "EOF") else Ok [∅].

Definition encodeTaskDTOs (resp : list kube.taskDTO) : result string :=
  Ok (String.concat "," (kube.dtoID <$> resp)).

Definition encodeStrings (l : list string) : result string :=
  Ok (String.concat "," l).

Definition SendNotFound (w : http.ResponseRecorder) (name : string)
           (err : error) : http.ResponseRecorder :=
  http.Error w ("No such " +:+ name +:+ ": " +:+ Error err) http.StatusNotFound.

Definition SendUnknownError (w : http.ResponseRecorder) (err : error)
  : http.ResponseRecorder :=
  http.Error w (Error err) http.StatusInternalServerError.

Definition NewConfig (clusterName discoveryUrl accountName : string)
           (p : profile.Profile) : steps.Config :=
  {| steps.ClusterName := clusterName; steps.CloudAccountName := accountName;
     steps.Credentials := ∅; steps.Node := node.mkNode "" |}.

Definition AddMaster (config : steps.Config) (n : option node.Node)
  : steps.Config := config.

Definition FillCloudAccountCredentials (acc : model.CloudAccount)
           (config : steps.Config) : steps.Config * option error :=
  ({| steps.ClusterName := steps.ClusterName config;
      steps.CloudAccountName := steps.CloudAccountName config;
      steps.Credentials := model.Credentials acc;
      steps.Node := steps.Node config |}, None).

Definition registry : gmap string (list string) :=
  {[ "DigitalOceanDeleteCluster" := ["DeleteMachines"; "DeleteKeys"];
     "DigitalOceanDeleteNode" := ["DeleteMachine"] ]}.

Definition handler : kube.Handler :=
  kube.NewHandler "digitalocean" "DigitalOceanDeleteCluster"
    "DigitalOceanDeleteNode".

(** DELETE /kubes/alpha/nodes/{nodename} and the like. *)
Definition request (nodename body : string) : http.Request :=
  {| http.Vars := {[ "kname" := "alpha"; "nodename" := nodename ]};
     http.ReqBody := body |}.

(** The sample world with a provisioner that fails. *)
Definition failingProvisioner (err : error) : World :=
  {| kubes := {[ "alpha" := sampleKube ]};
     accounts := {[ "acc" := sampleAccount "digitalocean" ]};
     records := [];
     provisioner := Err err;
     writerFails := None;
     freshIDs := [];
     running := [];
     logged := [] |}.

End inmem.

(** ** Reading a trace *)

(** The repository deletes of a trace, in order, as (prefix, key). *)
Definition repoDeletes (tr : list Event) : list (string * string) :=
  omap (λ ev, match callOf ev with
              | RepoDelete prefix key => Some (prefix, key)
              | _ => None
              end) tr.

(** The task identities a provisioner call answered with, if it is one and
    it succeeded. *)
Definition provisioned (ev : Event) : option (list string) :=
  match ev with
  | existT c a =>
      match c return Ans c → option (list string) with
      | ProvisionNodes _ _ _ =>
          λ a, match a with Ok ids => Some ids | Err _ => None end
      | _ => λ _, None
      end a
  end.

(** Whether an event is a call of the node provisioner. *)
Definition isProvisionNodes (ev : Event) : bool :=
  match callOf ev with
  | ProvisionNodes _ _ _ => true
  | _ => false
  end.

(** Calls that change what the kube service or the repository stores, or
    start work in the engine. *)
Definition mutating (c : Call) : bool :=
  match c with
  | SvcCreate _ | SvcDelete _ | RepoPut _ _ _ | RepoDelete _ _
  | ProvisionNodes _ _ _ | TaskRun _ _ _ => true
  | _ => false
  end.

(** Calls that delete or overwrite a cluster record or delete a task record. *)
Definition destructive (c : Call) : bool :=
  match c with
  | SvcCreate _ | SvcDelete _ | RepoDelete _ _ => true
  | _ => false
  end.

Definition isTaskRun (ev : Event) : bool :=
  match callOf ev with
  | TaskRun _ _ _ => true
  | _ => false
  end.



(** ** createKube and getKube *)

Module kubeapi.

Section Handler.

(** json.NewDecoder(r.Body).Decode into a kube, json.NewEncoder(w).Encode of
    a kube, and govalidator.ValidateStruct, which returns (bool, error). *)
Variable decodeKube : string → result model.Kube.
Variable encodeKube : model.Kube → result string.
Variable ValidateStruct : model.Kube → bool * option error.

(** message.SendInvalidJSON, message.SendValidationFailed (which is handed
    the possibly nil error of the validator), message.SendNotFound,
    message.SendUnknownError *)
Variable SendInvalidJSON :
  http.ResponseRecorder → error → http.ResponseRecorder.
Variable SendValidationFailed :
  http.ResponseRecorder → option error → http.ResponseRecorder.
Variable SendNotFound :
  http.ResponseRecorder → string → error → http.ResponseRecorder.
Variable SendUnknownError :
  http.ResponseRecorder → error → http.ResponseRecorder.

Definition createKube (h : kube.Handler) (r : http.Request)
           (w : http.ResponseRecorder) : Prog http.ResponseRecorder :=
  match decodeKube (http.ReqBody r) with
  | Err err => Ret (SendInvalidJSON w err)
  | Ok k =>
      let '(ok, err) := ValidateStruct k in
      if negb ok then Ret (SendValidationFailed w err)
      else
        err <- call (SvcCreate k);;
        match err with
        | Some err => Ret (SendUnknownError w err)
        | None => Ret (http.WriteHeader w http.StatusAccepted)
        end
  end.

Definition getKube (h : kube.Handler) (r : http.Request)
           (w : http.ResponseRecorder) : Prog http.ResponseRecorder :=
  let kname := default "" (http.Vars r !! "kname") in
  rk <- call (SvcGet kname);;
  match rk with
  | Err err =>
      if IsNotFound err then Ret (SendNotFound w kname err)
      else Ret (SendUnknownError w err)
  | Ok k =>
      match encodeKube k with
      | Err err => Ret (SendUnknownError w err)
      | Ok buf => Ret (http.Write w buf)
      end
  end.

End Handler.

End kubeapi.

(** ** Well-formed task records in the in-memory repository *)

Module store.

(** The records under [prefix], as (key, value). *)
Definition under (prefix : string) (recs : list (string * string * string))
  : list (string * string) :=
  (λ r, (r.1.2, r.2)) <$> List.filter (λ r, bool_decide (r.1.1 = prefix)) recs.

(** Every record under [prefix] decodes, and to a task whose ID is the key
    it is stored under; no key occurs twice. *)
Definition keyedByID (unmarshalTask : string → result workflows.Task)
           (prefix : string) (recs : list (string * string * string)) : Prop :=
  NoDup ((under prefix recs).*1)
  ∧ ∀ key v, (key, v) ∈ under prefix recs →
             ∃ task, unmarshalTask v = Ok task ∧ workflows.ID task = key.

(** Sample instances for createKube and getKube. *)
Definition decodeKube (body : string) : result model.Kube :=
  if bool_decide (body = "alpha") then Ok inmem.sampleKube
  else Err (New "unexpected end of JSON input").

Definition encodeKube (k : model.Kube) : result string :=
  Ok ("kube:" +:+ model.Name k).

Definition ValidateStruct (k : model.Kube) : bool * option error :=
  if bool_decide (model.Name k = "") then (false, Some (New "name: required"))
  else (true, None).

Definition SendInvalidJSON (w : http.ResponseRecorder) (err : error)
  : http.ResponseRecorder :=
  http.Error w (Error err) http.StatusBadRequest.

Definition SendValidationFailed (w : http.ResponseRecorder)
           (err : option error) : http.ResponseRecorder :=
  http.Error w (from_option Error "" err) http.StatusBadRequest.

(** A record that does not decode between two that do. *)
Definition mixedRecords : list (string * string) :=
  [("a1", "rec-a1"); ("x9", "garbage"); ("b1", "rec-b1")].

(** Cluster alpha without masters, and a world that holds it. *)
Definition masterless : model.Kube :=
  {| model.Name := "alpha"; model.AccountName := "acc";
     model.Region := "fra1"; model.Arch := "amd64";
     model.OperatingSystem := "linux"; model.OperatingSystemVersion := "16.04";
     model.DockerVersion := "17.06"; model.K8SVersion := "1.11";
     model.HelmVersion := "2.8";
     model.Networking_ := model.mkNetworking "flannel" "10.0.0.0/24" "0.10";
     model.RBACEnabled := true;
     model.Masters := ∅;
     model.Nodes := {[ "n1" := node.mkNode "n1" ]} |}.

Definition masterlessWorld : inmem.World :=
  {| inmem.kubes := {[ "alpha" := masterless ]};
     inmem.accounts := {[ "acc" := inmem.sampleAccount "digitalocean" ]};
     inmem.records := [];
     inmem.provisioner := Ok [];
     inmem.writerFails := None;
     inmem.freshIDs := [];
     inmem.running := [];
     inmem.logged := [] |}.

(** The task created for the deletion of a DigitalOcean cluster under the
    first fresh ID of the sample world. *)
Definition createdTask : workflows.Task :=
  {| workflows.ID := "t1";
     workflows.Type_ := "DigitalOceanDeleteCluster";
     workflows.Status := steps.StatusPending;
     workflows.StepStatuses :=
       [workflows.mkStepStatus "DeleteMachines" steps.StatusPending "";
        workflows.mkStepStatus "DeleteKeys" steps.StatusPending ""];
     workflows.Config := None |}.

(** Records stored under keys that are not the IDs of their tasks: the task
    b1 of beta under the key a1, the task a1 of alpha under the key zz. *)
Definition misKeyedRecords : list (string * string) :=
  [("a1", "rec-b1"); ("zz", "rec-a1")].

(** A request without path variables. *)
Definition bareRequest (body : string) : http.Request :=
  {| http.Vars := ∅; http.ReqBody := body |}.

End store.

(** * Properties *)

Section ExecutionFacts.

Context {W : Type}.
Variable env : ∀ c : Call, W → Ans c * W.

Lemma exec_bind {A B : Type} (p : Prog A) (f : A → Prog B) (w : W) :
  exec env (bind p f) w =
    let o1 := exec env p w in
    let o2 := exec env (f (value o1)) (world o1) in
    mkOutcome (value o2) (world o2) (trace o1 ++ trace o2).
Proof.
  revert w; induction p as [a | c k IH]; intros w; simpl.
  - by destruct (exec env (f a) w).
  - destruct (env c w) as [x w1]. by rewrite IH.
Qed.

Lemma exec_call (c : Call) (w : W) :
  exec env (call c) w =
    {| value := (env c w).1; world := (env c w).2;
       trace := [event c (env c w).1] |}.
Proof. unfold call; simpl. by destruct (env c w). Qed.

End ExecutionFacts.

(** ** Listing and deleting the tasks of a cluster *)

Section TaskListing.

Context {W : Type}.
Variable env : ∀ c : Call, W → Ans c * W.
Variable Prefix : string.
Variable unmarshalTask : string → result workflows.Task.

Local Abbreviation inCluster := kube.inCluster.
Local Abbreviation rangeData := (kube.rangeData unmarshalTask).
Local Abbreviation getKubeTasks := (kube.getKubeTasks Prefix unmarshalTask).
Local Abbreviation deleteClusterTasks := (kube.deleteClusterTasks Prefix unmarshalTask).

(** [data] decodes, record by record, to [ts]. *)
Local Abbreviation decodesTo data ts :=
  (Forall2 (λ v task, unmarshalTask v = Ok task) data ts).

Lemma inCluster_spec (kubeName : string) (task : workflows.Task) :
  inCluster kubeName task ↔
  ∃ config, workflows.Config task = Some config
            ∧ steps.ClusterName config = kubeName.
Proof.
  unfold kube.inCluster. destruct (workflows.Config task) as [config|]; simpl.
  - rewrite bool_decide_spec. split; [eauto | by intros (? & [= <-] & ?)].
  - split; [done | by intros (? & ? & ?)].
Qed.

Lemma rangeData_decoded kubeName data ts tasks :
  decodesTo data ts →
  rangeData kubeName data tasks
  = Ok (tasks ++ filter (λ t, inCluster kubeName t) ts).
Proof.
  intros Hdec; revert tasks.
  induction Hdec as [| v task data ts Hv _ IH]; intros tasks; simpl.
  - by rewrite filter_nil, app_nil_r.
  - rewrite Hv, filter_cons.
    destruct (inCluster kubeName task) eqn:Hin; case_decide as Hd;
      simpl in Hd; try contradiction.
    + by rewrite IH, <- app_assoc.
    + apply IH.
Qed.

Lemma rangeData_corrupt kubeName data tasks v err :
  v ∈ data → unmarshalTask v = Err err →
  ∃ v' err', v' ∈ data ∧ unmarshalTask v' = Err err'
             ∧ rangeData kubeName data tasks
               = Err (Wrap err' "unmarshal task data").
Proof.
  intros Hin Hv; revert tasks.
  induction data as [| v0 data IH]; intros tasks; [by apply elem_of_nil in Hin |].
  simpl. destruct (unmarshalTask v0) as [task | err0] eqn:H0.
  - assert (v ∈ data) as Hin'.
    { apply elem_of_cons in Hin as [-> | ?]; [congruence | done]. }
    assert (∀ tasks', ∃ v' err', v' ∈ data ∧ unmarshalTask v' = Err err'
              ∧ rangeData kubeName data tasks'
                = Err (Wrap err' "unmarshal task data")) as IH' by eauto.
    destruct (inCluster kubeName task).
    + destruct (IH' (tasks ++ [task])) as (v' & err' & ? & ? & ?).
      exists v', err'. by rewrite elem_of_cons; eauto.
    + destruct (IH' tasks) as (v' & err' & ? & ? & ?).
      exists v', err'. by rewrite elem_of_cons; eauto.
  - exists v0, err0. rewrite elem_of_cons. eauto.
Qed.

Lemma rangeData_sound kubeName data tasks result task :
  rangeData kubeName data tasks = Ok result → task ∈ result →
  task ∈ tasks
  ∨ ∃ v, v ∈ data ∧ unmarshalTask v = Ok task ∧ inCluster kubeName task.
Proof.
  revert tasks; induction data as [| v data IH]; intros tasks; simpl.
  - intros [= <-] ?. by left.
  - destruct (unmarshalTask v) as [t | ?] eqn:Hv; [| done].
    destruct (inCluster kubeName t) eqn:Hin; intros Hr Htask;
      destruct (IH _ Hr Htask) as [Hacc | (v' & ? & ? & ?)].
    + apply elem_of_app in Hacc as [? | ->%list_elem_of_singleton]; [by left |].
      right. exists v. rewrite elem_of_cons, Hin. eauto.
    + right. exists v'. rewrite elem_of_cons. eauto.
    + by left.
    + right. exists v'. rewrite elem_of_cons. eauto.
Qed.

Lemma exec_getKubeTasks h kubeName w :
  exec env (getKubeTasks h kubeName) w =
    {| value := match (env (RepoGetAll Prefix) w).1 with
                | Err err => Err (Wrap err "get cluster tasks")
                | Ok data => rangeData kubeName data []
                end;
       world := (env (RepoGetAll Prefix) w).2;
       trace := [event (RepoGetAll Prefix) (env (RepoGetAll Prefix) w).1] |}.
Proof.
  unfold kube.getKubeTasks; simpl.
  by destruct (env (RepoGetAll Prefix) w) as [[data | err] w1].
Qed.

(** C1, for a namespace that decodes.  When the scan of the task namespace
    succeeds and every record under it decodes as a task, getKubeTasks
    returns exactly the
    decoded tasks whose config names the queried cluster, in scan order:
    a task is in the result if and only if it was decoded from the namespace,
    has a config, and that config's ClusterName is the queried name; how many
    tasks of other clusters the namespace holds does not matter. *)
Theorem getKubeTasks_exact h kubeName w data ts :
  (env (RepoGetAll Prefix) w).1 = Ok data →
  decodesTo data ts →
  ∃ tasks,
    value (exec env (getKubeTasks h kubeName) w) = Ok tasks
    ∧ tasks = filter (λ t, inCluster kubeName t) ts
    ∧ ∀ task,
        task ∈ tasks ↔
        task ∈ ts
        ∧ ∃ config, workflows.Config task = Some config
                    ∧ steps.ClusterName config = kubeName.
Proof.
  intros Hget Hdec. eexists; split; [| split; [reflexivity |]].
  - rewrite exec_getKubeTasks; cbn [value]. rewrite Hget.
    by rewrite (rangeData_decoded _ _ _ _ Hdec).
  - intros task. rewrite list_elem_of_filter, inCluster_spec. tauto.
Qed.

(** C10.  If any record under the task namespace fails to decode,
    getKubeTasks returns an error (the wrapped error of an undecodable
    record) and no task list, whatever cluster is asked for. *)
Theorem getKubeTasks_corrupt_record h kubeName w data v err :
  (env (RepoGetAll Prefix) w).1 = Ok data →
  v ∈ data → unmarshalTask v = Err err →
  ∃ v' err',
    v' ∈ data ∧ unmarshalTask v' = Err err'
    ∧ value (exec env (getKubeTasks h kubeName) w)
      = Err (Wrap err' "unmarshal task data").
Proof.
  intros Hget Hin Hv. rewrite exec_getKubeTasks; cbn [value]. rewrite Hget.
  by eapply rangeData_corrupt.
Qed.

(** The body of the loop of deleteClusterTasks. *)
Local Abbreviation deleteBody :=
  (λ task : workflows.Task,
     r <- call (RepoDelete Prefix (workflows.ID task));;
     match r with
     | Some err =>
         call (Logf LogWarn
           ("delete task " +:+ workflows.ID task +:+ ": " +:+ Error err))
     | None => Ret tt
     end).

Lemma exec_deleteLoop (tasks : list workflows.Task) (w : W) :
  let o := exec env (forRange tasks deleteBody) w in
  repoDeletes (trace o) = (λ t, (Prefix, workflows.ID t)) <$> tasks
  ∧ ∀ ev, ev ∈ trace o → mutating (callOf ev) →
          ∃ key, callOf ev = RepoDelete Prefix key.
Proof.
  revert w; induction tasks as [| task tasks IH]; intros w; simpl.
  - split; [done |]. by intros ev ?%elem_of_nil.
  - destruct (env (RepoDelete Prefix (workflows.ID task)) w) as [[err |] w1];
      simpl.
    + destruct (env (Logf LogWarn _) w1) as [[] w2]; simpl.
      destruct (IH w2) as [IHd IHm]. split.
      * unfold repoDeletes in *; simpl. f_equal. exact IHd.
      * intros ev [-> | [-> | Hev]%elem_of_cons]%elem_of_cons; simpl;
          [by eexists | done | exact (IHm ev Hev)].
    + destruct (IH w1) as [IHd IHm]. split.
      * unfold repoDeletes in *; simpl. f_equal. exact IHd.
      * intros ev [-> | Hev]%elem_of_cons; simpl;
          [by eexists | exact (IHm ev Hev)].
Qed.

Lemma exec_deleteClusterTasks h clusterName w :
  trace (exec env (deleteClusterTasks h clusterName) w) =
    event (RepoGetAll Prefix) (env (RepoGetAll Prefix) w).1
    :: match value (exec env (getKubeTasks h clusterName) w) with
       | Err _ => []
       | Ok tasks =>
           trace (exec env (forRange tasks deleteBody)
                    (env (RepoGetAll Prefix) w).2)
       end.
Proof.
  unfold kube.deleteClusterTasks. rewrite exec_bind, exec_getKubeTasks.
  cbn [value world trace].
  destruct (match (env (RepoGetAll Prefix) w).1 with
            | Ok data => rangeData clusterName data []
            | Err err => Err (Wrap err "get cluster tasks")
            end) as [tasks | err]; simpl; [| done].
  rewrite exec_bind; simpl. by rewrite app_nil_r.
Qed.

Lemma NoDup_fmap_eq {A B : Type} (f : A → B) (l : list A) (x y : A) :
  NoDup (f <$> l) → x ∈ l → y ∈ l → f x = f y → x = y.
Proof.
  induction l as [| a l IH]; simpl; [by intros _ ?%elem_of_nil |].
  rewrite NoDup_cons, !elem_of_cons.
  intros [Ha Hl] [-> | Hx] [-> | Hy] Hf; auto.
  - destruct Ha. rewrite Hf. apply list_elem_of_fmap. eauto.
  - destruct Ha. rewrite <- Hf. apply list_elem_of_fmap. eauto.
Qed.

Lemma deleteClusterTasks_mutating h clusterName w ev :
  ev ∈ trace (exec env (deleteClusterTasks h clusterName) w) →
  mutating (callOf ev) → ∃ key, callOf ev = RepoDelete Prefix key.
Proof.
  rewrite exec_deleteClusterTasks.
  intros [-> | Hev]%elem_of_cons; [done |].
  destruct (value (exec env (getKubeTasks h clusterName) w)) as [tasks | err];
    [| by apply elem_of_nil in Hev].
  by apply (exec_deleteLoop tasks (env (RepoGetAll Prefix) w).2).
Qed.

(** The deletes of deleteClusterTasks, call by call.  Every repository delete
    that deleteClusterTasks issues is on the ID of a task that was decoded from the task namespace and whose
    config names the cluster, and it issues no other call that changes a
    store.  When the scan succeeds and every record decodes, it issues a
    delete for every such task, one per task and in scan order, and, task IDs
    being distinct, none for a task of another cluster. *)
Theorem deleteClusterTasks_deletes h clusterName w :
  let o := exec env (deleteClusterTasks h clusterName) w in
  (∀ prefix key,
     (prefix, key) ∈ repoDeletes (trace o) →
     prefix = Prefix
     ∧ ∃ data v task,
         (env (RepoGetAll Prefix) w).1 = Ok data
         ∧ v ∈ data ∧ unmarshalTask v = Ok task
         ∧ workflows.ID task = key ∧ inCluster clusterName task)
  ∧ (∀ ev, ev ∈ trace o → mutating (callOf ev) →
           ∃ key, callOf ev = RepoDelete Prefix key)
  ∧ (∀ data ts,
       (env (RepoGetAll Prefix) w).1 = Ok data →
       decodesTo data ts →
       repoDeletes (trace o)
       = (λ t, (Prefix, workflows.ID t))
           <$> filter (λ t, inCluster clusterName t) ts
       ∧ (∀ task, task ∈ ts → inCluster clusterName task →
                  (Prefix, workflows.ID task) ∈ repoDeletes (trace o))
       ∧ (NoDup (workflows.ID <$> ts) →
          ∀ task, task ∈ ts → ¬ inCluster clusterName task →
                  (Prefix, workflows.ID task) ∉ repoDeletes (trace o))).
Proof.
  intros o. subst o.
  split; [| split; [apply deleteClusterTasks_mutating |]];
    rewrite exec_deleteClusterTasks, exec_getKubeTasks;
    cbn [value world]; set (w1 := (env (RepoGetAll Prefix) w).2);
    (destruct ((env (RepoGetAll Prefix) w).1) as [data | err] eqn:Hget;
       [| by first [intros ? ? ?%elem_of_nil | intros ? ? [=]]]);
    (assert (∀ tasks, repoDeletes
               (event (RepoGetAll Prefix) (Ok data)
                  :: trace (exec env (forRange tasks deleteBody) w1))
             = (λ t, (Prefix, workflows.ID t)) <$> tasks) as Hdel
       by (intros tasks; apply (exec_deleteLoop tasks w1))).
  - intros prefix key.
    destruct (rangeData clusterName data []) as [tasks | err] eqn:Hrange;
      [| by intros ?%elem_of_nil].
    rewrite Hdel. intros (task & [= -> ->] & Htask)%list_elem_of_fmap.
    split; [done |].
    destruct (rangeData_sound _ _ _ _ _ Hrange Htask)
      as [?%elem_of_nil | (v & ? & ? & ?)]; [done |].
    by exists data, v, task.
  - intros data' ts [= <-] Hdec.
    rewrite (rangeData_decoded _ _ _ _ Hdec), app_nil_l, Hdel.
    split; [done | split].
    + intros task Hin Hcl. apply list_elem_of_fmap. exists task.
      by rewrite list_elem_of_filter.
    + intros Hnodup task Hin Hcl
        (task' & [= Hid] & [Hcl' Hin']%list_elem_of_filter)%list_elem_of_fmap.
      assert (task = task') as -> by by apply (NoDup_fmap_eq workflows.ID ts).
      done.
Qed.

(** ** The completion goroutine of deleteKube *)

Local Abbreviation deleteKubeCompletion :=
  (kube.deleteKubeCompletion Prefix unmarshalTask).

Lemma exec_deleteKubeCompletion h kname sig w :
  trace (exec env (deleteKubeCompletion h kname sig) w) =
    match sig with
    | Some _ => []
    | None =>
        event (SvcDelete kname) (env (SvcDelete kname) w).1
        :: match (env (SvcDelete kname) w).1 with
           | Some err =>
               [event (Logf LogError
                         ("delete kube " +:+ kname +:+ " caused " +:+ Error err))
                      tt]
           | None =>
               trace (exec env (deleteClusterTasks h kname)
                        (env (SvcDelete kname) w).2)
           end
    end.
Proof.
  destruct sig as [err |]; [done |].
  unfold kube.deleteKubeCompletion. rewrite exec_bind, exec_call.
  cbn [value world trace app]. f_equal.
  destruct ((env (SvcDelete kname) w).1) as [err |]; cbv beta iota.
  - unfold call; cbn [exec]. by destruct (env (Logf LogError _) _) as [[] ?].
  - rewrite exec_bind. cbn [exec value world trace]. by rewrite app_nil_r.
Qed.

(** C4.  In the completion goroutine of deleteKube nothing is called, and the
    world is left as it was, when the completion signal carries an error; the
    cluster record is deleted only as the first call after a nil signal; and
    a task record is deleted only after that first call, the deletion of the
    cluster record, answered without error.  When the deletion of the cluster
    record fails no task record is deleted. *)
Theorem deleteKubeCompletion_order h kname sig w :
  let o := exec env (deleteKubeCompletion h kname sig) w in
  (∀ err, sig = Some err → trace o = [] ∧ world o = w)
  ∧ (∀ i name,
       callOf <$> trace o !! i = Some (SvcDelete name) →
       sig = None ∧ i = 0%nat ∧ name = kname)
  ∧ (∀ i prefix key,
       callOf <$> trace o !! i = Some (RepoDelete prefix key) →
       sig = None ∧ (0 < i)%nat
       ∧ trace o !! 0%nat = Some (event (SvcDelete kname) None))
  ∧ (∀ err,
       sig = None → (env (SvcDelete kname) w).1 = Some err →
       repoDeletes (trace o) = []).
Proof.
  intros o; subst o. split; [by intros err -> |].
  rewrite exec_deleteKubeCompletion.
  destruct sig as [err |]; [by repeat split; intros; simplify_eq/= |].
  destruct ((env (SvcDelete kname) w).1) as [err |] eqn:Hdel.
  - split; [| split]; [| | by intros].
    + intros [| [| i]] name; intros; by simplify_eq/=.
    + intros [| [| i]] prefix key; intros; by simplify_eq/=.
  - split; [| split]; [| | by intros].
    + intros [| i] name; [by intros; simplify_eq/= |]. cbn [lookup list_lookup].
      intros Hi. exfalso.
      destruct (trace (exec env (deleteClusterTasks h kname)
                         (env (SvcDelete kname) w).2) !! i)
        as [ev |] eqn:Hev; [| done].
      injection Hi as Hcall.
      destruct (deleteClusterTasks_mutating h kname
                  (env (SvcDelete kname) w).2 ev) as [key Hkey].
      * by eapply list_elem_of_lookup_2.
      * by rewrite Hcall.
      * congruence.
    + intros [| i] prefix key; [by intros; simplify_eq/= |].
      intros _. split; [done |]. split; [lia | done].
Qed.

(** ** The completion goroutine of deleteNode *)

Lemma exec_deleteNodeCompletion h k kname nodeName sig w :
  let k' := model.withNodes k (delete nodeName (model.Nodes k)) in
  let o := exec env (kube.deleteNodeCompletion h k kname nodeName sig) w in
  value o = k'
  ∧ (∃ i, callOf <$> trace o !! i = Some (SvcCreate k'))
  ∧ ∀ ev, ev ∈ trace o →
          callOf ev = SvcCreate k' ∨ ∃ level msg, callOf ev = Logf level msg.
Proof.
  unfold kube.deleteNodeCompletion. destruct sig as [err |]; simpl.
  - destruct (env (Logf LogError _) w) as [[] w1]; simpl.
    destruct (env (Logf LogInfo _) w1) as [[] w2]; simpl.
    destruct (env (SvcCreate _) w2) as [[err' |] w3]; simpl;
      [destruct (env (Logf LogError _) w3) as [[] w4]; simpl |];
      (split; [done |]); (split; [by exists 2%nat |]);
      intros ev Hev; repeat (apply elem_of_cons in Hev as [-> | Hev]);
      simpl; eauto; by apply elem_of_nil in Hev.
  - destruct (env (Logf LogInfo _) w) as [[] w2]; simpl.
    destruct (env (SvcCreate _) w2) as [[err' |] w3]; simpl;
      [destruct (env (Logf LogError _) w3) as [[] w4]; simpl |];
      (split; [done |]); (split; [by exists 1%nat |]);
      intros ev Hev; repeat (apply elem_of_cons in Hev as [-> | Hev]);
      simpl; eauto; by apply elem_of_nil in Hev.
Qed.

End TaskListing.

(** ** The handlers *)

Lemma http_Error_fresh (w : http.ResponseRecorder) (msg : string) (code : Z) :
  http.wroteHeader w = false →
  http.Code (http.Error w msg code) = code
  ∧ http.Body (http.Error w msg code) = http.Body w +:+ msg +:+ http.newline.
Proof.
  intros Hw. unfold http.Error, http.Write, http.WriteHeader.
  rewrite Hw. by simpl.
Qed.

Lemma http_WriteHeader_fresh (w : http.ResponseRecorder) (code : Z) :
  http.wroteHeader w = false →
  http.Code (http.WriteHeader w code) = code
  ∧ http.wroteHeader (http.WriteHeader w code) = true.
Proof. intros Hw. unfold http.WriteHeader. rewrite Hw. by simpl. Qed.

Lemma http_Write_written (w : http.ResponseRecorder) (buf : string) :
  http.wroteHeader w = true → http.Code (http.Write w buf) = http.Code w.
Proof. intros Hw. unfold http.Write, http.WriteHeader. rewrite Hw. by simpl. Qed.

Lemma http_Error_written (w : http.ResponseRecorder) (msg : string) (code : Z) :
  http.wroteHeader w = true → http.Code (http.Error w msg code) = http.Code w.
Proof.
  intros Hw. unfold http.Error, http.Write, http.WriteHeader.
  rewrite Hw; simpl. by rewrite Hw.
Qed.

Section Handlers.

Context {W : Type}.
Variable env : ∀ c : Call, W → Ans c * W.
Variable Prefix : string.
Variable unmarshalTask : string → result workflows.Task.
Variable marshalTask : workflows.Task → string.
Variable decodeNodeProfiles : string → result (list profile.NodeProfile).
Variable encodeTaskDTOs : list kube.taskDTO → result string.
Variable encodeStrings : list string → result string.
Variable SendNotFound :
  http.ResponseRecorder → string → error → http.ResponseRecorder.
Variable SendUnknownError :
  http.ResponseRecorder → error → http.ResponseRecorder.
Variable NewConfig : string → string → string → profile.Profile → steps.Config.
Variable AddMaster : steps.Config → option node.Node → steps.Config.
Variable FillCloudAccountCredentials :
  model.CloudAccount → steps.Config → steps.Config * option error.
Variable registry : gmap string (list string).

Local Abbreviation NewTask := (kube.NewTask Prefix marshalTask registry).
Local Abbreviation getKubeTasks := (kube.getKubeTasks Prefix unmarshalTask).
Local Abbreviation getTasks :=
  (kube.getTasks Prefix unmarshalTask encodeTaskDTOs SendNotFound
     SendUnknownError).
Local Abbreviation deleteKube :=
  (kube.deleteKube Prefix unmarshalTask marshalTask SendNotFound
     SendUnknownError FillCloudAccountCredentials registry).
Local Abbreviation deleteNode :=
  (kube.deleteNode Prefix marshalTask SendNotFound SendUnknownError
     FillCloudAccountCredentials registry).
Local Abbreviation addNode :=
  (kube.addNode decodeNodeProfiles encodeStrings NewConfig AddMaster
     FillCloudAccountCredentials).

(** [vars["kname"]] and [vars["nodename"]] *)
Local Abbreviation knameOf r := (default "" (http.Vars r !! "kname")).
Local Abbreviation nodeNameOf r := (default "" (http.Vars r !! "nodename")).

(** C9.  When getKubeTasks succeeds with no task for the cluster, getTasks
    answers with http.Error(w, "", 404): status 404 and a body that is the
    empty message and its newline, not an encoded list. *)
Theorem getTasks_no_tasks h r rec w id :
  http.Vars r !! "kname" = Some id →
  value (exec env (getKubeTasks h id) w) = Ok [] →
  value (exec env (getTasks h r rec) w) = http.Error rec "" http.StatusNotFound
  ∧ (http.wroteHeader rec = false →
     http.Code (value (exec env (getTasks h r rec) w)) = 404
     ∧ http.Body (value (exec env (getTasks h r rec) w))
       = http.Body rec +:+ http.newline).
Proof.
  intros Hid Hnone.
  assert (value (exec env (getTasks h r rec) w)
          = http.Error rec "" http.StatusNotFound) as ->.
  { unfold kube.getTasks. rewrite Hid, exec_bind. cbn [value world].
    by rewrite Hnone. }
  split; [done |]. intros Hfresh.
  by destruct (http_Error_fresh rec "" http.StatusNotFound Hfresh) as [-> ->].
Qed.

(** C8.  A deleteNode request that names a master of the cluster is answered
    with 405 and "delete master node not allowed"; the only call of the
    handler is the lookup of the cluster, so no task is created, nothing is
    stored or deleted, and no goroutine is started. *)
Theorem deleteNode_master h r rec w k :
  (env (SvcGet (knameOf r)) w).1 = Ok k →
  is_Some (model.Masters k !! nodeNameOf r) →
  let o := exec env (deleteNode h r rec) w in
  value o = (http.Error rec "delete master node not allowed"
               http.StatusMethodNotAllowed, None)
  ∧ trace o = [event (SvcGet (knameOf r)) (Ok k)]
  ∧ world o = (env (SvcGet (knameOf r)) w).2
  ∧ (http.wroteHeader rec = false →
     http.Code (value o).1 = 405
     ∧ http.Body (value o).1
       = http.Body rec +:+ "delete master node not allowed" +:+ http.newline).
Proof.
  intros Hget Hmaster o; subst o. unfold kube.deleteNode.
  rewrite exec_bind, exec_call. cbn [value world trace]. rewrite Hget.
  rewrite bool_decide_true by done. cbn [exec value world trace app].
  do 3 (split; [done |]). intros Hfresh.
  exact (http_Error_fresh rec _ http.StatusMethodNotAllowed Hfresh).
Qed.

Lemma exec_NewTask_unregistered taskType w :
  registry !! taskType = None →
  exec env (NewTask taskType) w = mkOutcome (Err ErrNotFound) w [].
Proof. intros Hreg. unfold kube.NewTask. by rewrite Hreg. Qed.

(** C5, for requests that reach the workflow lookup.  When the cluster and
    its cloud account are found and the provider of the account has no entry
    in the handler's workflow map, the lookup reads the zero workflow set,
    creating a task of its empty kind (which the registry does not hold)
    reports NotFound, and deleteKube, and deleteNode for a node that is in
    the cluster's node set and is not a master, answer with http.NotFound,
    status 404, without starting a goroutine. *)
Theorem unsupported_provider_not_found h r rec w k acc :
  registry !! "" = None →
  (env (SvcGet (knameOf r)) w).1 = Ok k →
  (env (AccountGet (model.AccountName k)) (env (SvcGet (knameOf r)) w).2).1
  = Ok acc →
  kube.workflowMap h !! model.Provider acc = None →
  kube.workflowSetOf h (model.Provider acc) = workflows.zeroWorkflowSet
  ∧ (∀ w', value (exec env (NewTask "") w') = Err ErrNotFound)
  ∧ value (exec env (deleteKube h r rec) w) = (http.NotFound rec, None)
  ∧ (model.Masters k !! nodeNameOf r = None →
     is_Some (model.Nodes k !! nodeNameOf r) →
     value (exec env (deleteNode h r rec) w) = (http.NotFound rec, None))
  ∧ (http.wroteHeader rec = false → http.Code (http.NotFound rec) = 404).
Proof.
  intros Hreg Hget Hacc Hmap.
  assert (kube.workflowSetOf h (model.Provider acc) = workflows.zeroWorkflowSet)
    as Hzero by (unfold kube.workflowSetOf; by rewrite Hmap).
  split; [done |]. split; [by intros; rewrite exec_NewTask_unregistered |].
  split; [| split].
  - unfold kube.deleteKube.
    rewrite exec_bind, exec_call. cbn [value world]. rewrite Hget.
    rewrite exec_bind, exec_call. cbn [value world]. rewrite Hacc.
    rewrite exec_bind, Hzero. cbn [workflows.DeleteCluster workflows.zeroWorkflowSet].
    by rewrite exec_NewTask_unregistered.
  - intros Hnomaster Hnode. unfold kube.deleteNode.
    rewrite exec_bind, exec_call. cbn [value world]. rewrite Hget.
    rewrite bool_decide_false by (rewrite Hnomaster; by intros [? ?]).
    rewrite bool_decide_true by done. cbn [negb].
    rewrite exec_bind, exec_call. cbn [value world]. rewrite Hacc.
    rewrite exec_bind, Hzero. cbn [workflows.DeleteNode workflows.zeroWorkflowSet].
    by rewrite exec_NewTask_unregistered.
  - intros Hfresh. unfold http.NotFound.
    by destruct (http_Error_fresh rec "404 page not found"
                   http.StatusNotFound Hfresh) as [-> _].
Qed.

(** One step of an execution: name the answer of the next call, or split on
    the next scrutinee. *)
Local Ltac exec_step :=
  cbn [exec bind call value world trace app];
  match goal with
  | |- context [env ?c ?w] =>
      let x := fresh "x" in
      destruct (env c w) as [x ?];
      lazymatch eval hnf in (Ans c) with
      | result _ => destruct x
      | option _ => destruct x
      | unit => destruct x
      | _ => idtac
      end
  | |- context [match ?e with _ => _ end] => destruct e eqn:?
  end.

Local Ltac in_trace H :=
  repeat (apply elem_of_cons in H as [-> | H]);
  try (by apply elem_of_nil in H).

(** C6.  In addNode, when ProvisionNodes returns an error the whole response
    is http.Error with the error's text, status 404 if the error is NotFound
    and 500 otherwise, so no list of task identities is written; a response
    with status 202 is written only after ProvisionNodes returned a list of
    task identities without error, and it then carries the encoding of that
    list. *)
Theorem addNode_provision_error h r rec w :
  let o := exec env (addNode h r rec) w in
  (∀ ev err,
     ev ∈ trace o → isProvisionNodes ev → failure ev = Some err →
     value o = http.Error rec (Error err)
                 (if IsNotFound err then http.StatusNotFound
                  else http.StatusInternalServerError))
  ∧ (http.wroteHeader rec = false → http.Code (value o) = 202 →
     ∃ ev tasks, ev ∈ trace o ∧ provisioned ev = Some tasks)
  ∧ (∀ ev tasks,
       ev ∈ trace o → provisioned ev = Some tasks →
       (http.wroteHeader rec = false → http.Code (value o) = 202)
       ∧ ∀ buf, encodeStrings tasks = Ok buf →
                value o
                = http.Write (http.WriteHeader rec http.StatusAccepted) buf).
Proof.
  intros o; subst o. unfold kube.addNode.
  repeat exec_step; cbn [exec bind call value world trace app].
  all: split; [| split].
  all: try (intros ev ? Hev Hcall Hfail; in_trace Hev;
            simpl in *; simplify_eq;
            repeat match goal with
                   | H : IsNotFound _ = _ |- _ => rewrite H; clear H
                   end; done).
  all: try (intros ev ? Hev Hcall; in_trace Hev; simpl in Hcall; simplify_eq;
            (split; [| intros; congruence]); intros Hfresh;
            destruct (http_WriteHeader_fresh rec http.StatusAccepted Hfresh)
              as [Hcode Hwrote];
            by rewrite ?http_Write_written, ?http_Error_written).
  all: intros Hfresh; unfold http.NotFound;
    rewrite ?(proj1 (http_Error_fresh rec _ _ Hfresh));
    try (intros [=]; fail).
  all: intros _; eexists _, _; split;
    [rewrite !elem_of_cons; do 3 right; by left | done].
Qed.

(** The config deleteNode builds from the kube object [k]. *)
Local Abbreviation nodeConfig k nodeName :=
  {| steps.ClusterName := model.Name k;
     steps.CloudAccountName := model.AccountName k;
     steps.Credentials := ∅;
     steps.Node := node.mkNode nodeName |}.

(** C7.  When deleteNode starts its goroutine, the last call of the handler
    is Run, and the config Run receives is the value built from the kube
    object as the lookup returned it (its name, its account name, the node
    name, and the credentials filled in).  The goroutine, whatever it
    receives, changes the kube object only in its node set and calls only
    the logger and the kube service: it never calls the engine, and the
    config the task was given is still the one the changed kube object would
    yield. *)
Theorem deleteNode_config_snapshot h r rec w resp g :
  value (exec env (deleteNode h r rec) w) = (resp, Some g) →
  ∃ k acc t config out,
    (env (SvcGet (knameOf r)) w).1 = Ok k
    ∧ config = (FillCloudAccountCredentials acc (nodeConfig k (nodeNameOf r))).1
    ∧ last (callOf <$> trace (exec env (deleteNode h r rec) w))
      = Some (TaskRun t config out)
    ∧ ∀ sig w',
        let o' := exec env (kube.body g sig) w' in
        value o' = model.withNodes k (delete (nodeNameOf r) (model.Nodes k))
        ∧ (∀ ev, ev ∈ trace o' →
                 callOf ev = SvcCreate (value o')
                 ∨ ∃ level msg, callOf ev = Logf level msg)
        ∧ config
          = (FillCloudAccountCredentials acc
               (nodeConfig (value o') (nodeNameOf r))).1.
Proof.
  unfold kube.deleteNode, kube.NewTask.
  repeat exec_step; cbn [exec bind call value world trace app];
    try (intros [=]; fail).
  all: intros Heq; injection Heq as <- <-.
  all: match goal with
  | H : FillCloudAccountCredentials ?acc (nodeConfig ?k _) = (?c, None) |- _ =>
      exists k, acc; do 3 eexists;
      split; [done |]; split; [by rewrite H |]; split; [done |]
  end.
  all: intros sig w'; cbn [kube.body].
  all: match goal with
  | |- context [kube.deleteNodeCompletion ?h' ?k] =>
      destruct (exec_deleteNodeCompletion env h' k (knameOf r) (nodeNameOf r)
                  sig w') as (Hval & _ & Hcalls)
  end.
  all: split; [exact Hval |]; split; [by rewrite Hval |].
  all: rewrite Hval; cbn [model.withNodes model.Name model.AccountName].
  all: match goal with
  | H : FillCloudAccountCredentials _ _ = _ |- _ => by rewrite H
  end.
Qed.

End Handlers.

(** ** The properties at the sample data *)

Section Samples.

Import inmem.

Local Abbreviation getKubeTasks := (kube.getKubeTasks Prefix unmarshalTask).
Local Abbreviation deleteClusterTasks :=
  (kube.deleteClusterTasks Prefix unmarshalTask).
Local Abbreviation deleteKubeCompletion :=
  (kube.deleteKubeCompletion Prefix unmarshalTask).
Local Abbreviation getTasks :=
  (kube.getTasks Prefix unmarshalTask encodeTaskDTOs SendNotFound
     SendUnknownError).
Local Abbreviation deleteKube :=
  (kube.deleteKube Prefix unmarshalTask marshalTask SendNotFound
     SendUnknownError FillCloudAccountCredentials registry).
Local Abbreviation deleteNode :=
  (kube.deleteNode Prefix marshalTask SendNotFound SendUnknownError
     FillCloudAccountCredentials registry).
Local Abbreviation addNode :=
  (kube.addNode decodeNodeProfiles encodeStrings NewConfig AddMaster
     FillCloudAccountCredentials).

Example getKubeTasks_sample :
  value (exec env (getKubeTasks handler "alpha")
           (sampleWorld "digitalocean" sampleRecords))
  = Ok [taskOf "a1" "alpha"; taskOf "a2" "alpha"].
Proof. vm_compute. reflexivity. Qed.

Example getKubeTasks_corrupt_sample :
  value (exec env (getKubeTasks handler "alpha")
           (sampleWorld "digitalocean" corruptRecords))
  = Err (Wrap (New "invalid character") "unmarshal task data").
Proof. vm_compute. reflexivity. Qed.

Example deleteNode_sample :
  (value (exec env (deleteNode handler (request "n1" "") http.NewRecorder)
            (sampleWorld "digitalocean" sampleRecords))).1
  = http.mkRecorder 202 true "".
Proof. vm_compute. reflexivity. Qed.

(** Deleting the tasks of alpha leaves the record of beta in the store. *)
Example deleteClusterTasks_sample :
  records (world (exec env (deleteClusterTasks handler "alpha")
                    (sampleWorld "digitalocean" sampleRecords)))
  = [(Prefix, "b1", "rec-b1")].
Proof. vm_compute. reflexivity. Qed.

(** The goroutine of deleteNode leaves what the engine was asked to run as
    it is. *)
Example deleteNodeCompletion_sample :
  running
    (world (exec env (kube.deleteNodeCompletion handler sampleKube "alpha" "n1" None)
              (world (exec env
                        (deleteNode handler (request "n1" "") http.NewRecorder)
                        (sampleWorld "digitalocean" sampleRecords)))))
  = running
      (world (exec env (deleteNode handler (request "n1" "") http.NewRecorder)
                (sampleWorld "digitalocean" sampleRecords))).
Proof. vm_compute. reflexivity. Qed.

(** The listing at the sample records: both tasks of alpha, not the one of
    beta. *)
Lemma getKubeTasks_exact_witness :
  (env (RepoGetAll Prefix) (sampleWorld "digitalocean" sampleRecords)).1
  = Ok ["rec-a1"; "rec-b1"; "rec-a2"]
  ∧ Forall2 (λ v task, unmarshalTask v = Ok task)
      ["rec-a1"; "rec-b1"; "rec-a2"]
      [taskOf "a1" "alpha"; taskOf "b1" "beta"; taskOf "a2" "alpha"]
  ∧ ∃ tasks,
      value (exec env (getKubeTasks handler "alpha")
               (sampleWorld "digitalocean" sampleRecords)) = Ok tasks
      ∧ tasks = filter (λ t, kube.inCluster "alpha" t)
                  [taskOf "a1" "alpha"; taskOf "b1" "beta"; taskOf "a2" "alpha"]
      ∧ ∀ task,
          task ∈ tasks ↔
          task ∈ [taskOf "a1" "alpha"; taskOf "b1" "beta"; taskOf "a2" "alpha"]
          ∧ ∃ config, workflows.Config task = Some config
                      ∧ steps.ClusterName config = "alpha".
Proof.
  split; [vm_compute; reflexivity |]. split; [repeat constructor |].
  apply (getKubeTasks_exact env Prefix unmarshalTask handler "alpha"
           (sampleWorld "digitalocean" sampleRecords)
           ["rec-a1"; "rec-b1"; "rec-a2"]).
  - vm_compute; reflexivity.
  - repeat constructor.
Defined.

(** C1 does not hold for every namespace: beside a record that does not
    decode, a persisted task of cluster alpha is not in the result of
    getKubeTasks for alpha. *)
Lemma getKubeTasks_misses_task_beside_corrupt_record :
  (env (RepoGetAll Prefix) (sampleWorld "digitalocean" corruptRecords)).1
  = Ok ["rec-a1"; "garbage"]
  ∧ unmarshalTask "rec-a1" = Ok (taskOf "a1" "alpha")
  ∧ workflows.Config (taskOf "a1" "alpha") = Some (configOf "alpha")
  ∧ steps.ClusterName (configOf "alpha") = "alpha"
  ∧ ¬ ∃ tasks,
        value (exec env (getKubeTasks handler "alpha")
                 (sampleWorld "digitalocean" corruptRecords)) = Ok tasks
        ∧ taskOf "a1" "alpha" ∈ tasks.
Proof.
  do 4 (split; [vm_compute; reflexivity |]).
  intros (tasks & Htasks & _). vm_compute in Htasks. discriminate.
Qed.

Lemma getKubeTasks_corrupt_record_witness :
  (env (RepoGetAll Prefix) (sampleWorld "digitalocean" corruptRecords)).1
  = Ok ["rec-a1"; "garbage"]
  ∧ "garbage" ∈ ["rec-a1"; "garbage"]
  ∧ unmarshalTask "garbage" = Err (New "invalid character")
  ∧ ∃ v' err',
      v' ∈ ["rec-a1"; "garbage"] ∧ unmarshalTask v' = Err err'
      ∧ value (exec env (getKubeTasks handler "alpha")
                 (sampleWorld "digitalocean" corruptRecords))
        = Err (Wrap err' "unmarshal task data").
Proof.
  split; [vm_compute; reflexivity |]. split; [repeat constructor |].
  split; [vm_compute; reflexivity |].
  apply (getKubeTasks_corrupt_record env Prefix unmarshalTask handler "alpha"
           (sampleWorld "digitalocean" corruptRecords)
           ["rec-a1"; "garbage"] "garbage" (New "invalid character")).
  - vm_compute; reflexivity.
  - repeat constructor.
  - vm_compute; reflexivity.
Defined.

(** The deletes at the sample records: a1 and a2, not b1. *)
Lemma deleteClusterTasks_deletes_witness :
  (env (RepoGetAll Prefix) (sampleWorld "digitalocean" sampleRecords)).1
  = Ok ["rec-a1"; "rec-b1"; "rec-a2"]
  ∧ Forall2 (λ v task, unmarshalTask v = Ok task)
      ["rec-a1"; "rec-b1"; "rec-a2"]
      [taskOf "a1" "alpha"; taskOf "b1" "beta"; taskOf "a2" "alpha"]
  ∧ NoDup (workflows.ID
             <$> [taskOf "a1" "alpha"; taskOf "b1" "beta"; taskOf "a2" "alpha"])
  ∧ repoDeletes
      (trace (exec env (deleteClusterTasks handler "alpha")
                (sampleWorld "digitalocean" sampleRecords)))
    = [(Prefix, "a1"); (Prefix, "a2")]
  ∧ (Prefix, "b1")
    ∉ repoDeletes
        (trace (exec env (deleteClusterTasks handler "alpha")
                  (sampleWorld "digitalocean" sampleRecords))).
Proof.
  assert (NoDup (workflows.ID
             <$> [taskOf "a1" "alpha"; taskOf "b1" "beta"; taskOf "a2" "alpha"]))
    as Hnodup.
  { apply (bool_decide_unpack _). vm_compute. exact I. }
  split; [vm_compute; reflexivity |]. split; [repeat constructor |].
  split; [exact Hnodup |].
  destruct (deleteClusterTasks_deletes env Prefix unmarshalTask handler "alpha"
              (sampleWorld "digitalocean" sampleRecords))
    as (_ & _ & Hall).
  destruct (Hall ["rec-a1"; "rec-b1"; "rec-a2"]
              [taskOf "a1" "alpha"; taskOf "b1" "beta"; taskOf "a2" "alpha"])
    as (Heq & _ & Hother).
  - vm_compute; reflexivity.
  - repeat constructor.
  - split; [exact Heq |].
    apply (Hother Hnodup (taskOf "b1" "beta")).
    + repeat constructor.
    + vm_compute. exact id.
Defined.


(** The goroutine of deleteKube at the samples: an error signal, a cluster
    record that cannot be deleted, and a completed deletion. *)
Lemma deleteKubeCompletion_order_witness :
  (trace (exec env (deleteKubeCompletion handler "alpha" (Some (New "step failed")))
            (sampleWorld "digitalocean" sampleRecords)) = []
   ∧ world (exec env (deleteKubeCompletion handler "alpha" (Some (New "step failed")))
              (sampleWorld "digitalocean" sampleRecords))
     = sampleWorld "digitalocean" sampleRecords)
  ∧ ((env (SvcDelete "alpha") emptyWorld).1 = Some ErrNotFound
     ∧ repoDeletes
         (trace (exec env (deleteKubeCompletion handler "alpha" None) emptyWorld))
       = [])
  ∧ (callOf <$> trace (exec env (deleteKubeCompletion handler "alpha" None)
                         (sampleWorld "digitalocean" sampleRecords)) !! 2%nat
     = Some (RepoDelete Prefix "a1")
     ∧ trace (exec env (deleteKubeCompletion handler "alpha" None)
                (sampleWorld "digitalocean" sampleRecords)) !! 0%nat
       = Some (event (SvcDelete "alpha") None)).
Proof.
  split; [| split].
  - destruct (deleteKubeCompletion_order env Prefix unmarshalTask handler
                "alpha" (Some (New "step failed"))
                (sampleWorld "digitalocean" sampleRecords)) as (Herr & _).
    exact (Herr (New "step failed") eq_refl).
  - split; [vm_compute; reflexivity |].
    destruct (deleteKubeCompletion_order env Prefix unmarshalTask handler
                "alpha" None emptyWorld) as (_ & _ & _ & Hfail).
    apply (Hfail ErrNotFound eq_refl). vm_compute; reflexivity.
  - assert (callOf <$> trace (exec env (deleteKubeCompletion handler "alpha" None)
                                (sampleWorld "digitalocean" sampleRecords))
                       !! 2%nat
            = Some (RepoDelete Prefix "a1")) as Hcall
      by (vm_compute; reflexivity).
    split; [exact Hcall |].
    destruct (deleteKubeCompletion_order env Prefix unmarshalTask handler
                "alpha" None (sampleWorld "digitalocean" sampleRecords))
      as (_ & _ & Hrepo & _).
    exact (proj2 (proj2 (Hrepo 2%nat Prefix "a1" Hcall))).
Defined.

(** C3, at a failing input: the completion signal of the task that deletes
    node n1 of cluster alpha carries an error, and the goroutine still drops
    n1 from the kube object and re-saves the cluster without it. *)
Lemma deleteNodeCompletion_removes_node_on_error :
  model.Nodes sampleKube !! "n1" = Some (node.mkNode "n1")
  ∧ kubes (sampleWorld "digitalocean" sampleRecords) !! "alpha" = Some sampleKube
  ∧ model.Nodes
      (value (exec env
                (kube.deleteNodeCompletion handler sampleKube "alpha" "n1"
                   (Some (New "droplet was not deleted")))
                (sampleWorld "digitalocean" sampleRecords))) !! "n1" = None
  ∧ kubes
      (world (exec env
                (kube.deleteNodeCompletion handler sampleKube "alpha" "n1"
                   (Some (New "droplet was not deleted")))
                (sampleWorld "digitalocean" sampleRecords))) !! "alpha"
    = Some (model.withNodes sampleKube {[ "n2" := node.mkNode "n2" ]}).
Proof. repeat split; vm_compute; reflexivity. Qed.

Lemma unsupported_provider_not_found_witness :
  registry !! "" = None
  ∧ (env (SvcGet "alpha") (sampleWorld "aws" sampleRecords)).1 = Ok sampleKube
  ∧ (env (AccountGet "acc") (sampleWorld "aws" sampleRecords)).1
    = Ok (sampleAccount "aws")
  ∧ kube.workflowMap handler !! "aws" = None
  ∧ value (exec env (deleteKube handler (request "n1" "") http.NewRecorder)
             (sampleWorld "aws" sampleRecords))
    = (http.NotFound http.NewRecorder, None)
  ∧ value (exec env (deleteNode handler (request "n1" "") http.NewRecorder)
             (sampleWorld "aws" sampleRecords))
    = (http.NotFound http.NewRecorder, None)
  ∧ http.Code (http.NotFound http.NewRecorder) = 404.
Proof.
  do 4 (split; [vm_compute; reflexivity |]).
  destruct (unsupported_provider_not_found env Prefix unmarshalTask marshalTask
              SendNotFound SendUnknownError FillCloudAccountCredentials
              registry handler (request "n1" "") http.NewRecorder
              (sampleWorld "aws" sampleRecords) sampleKube (sampleAccount "aws"))
    as (_ & _ & Hkube & Hnode & Hcode); try (vm_compute; reflexivity).
  split; [exact Hkube |]. split; [| exact (Hcode eq_refl)].
  apply Hnode; [vm_compute; reflexivity | by eexists].
Defined.

Lemma addNode_provision_error_witness :
  event (ProvisionNodes [∅] sampleKube
           (FillCloudAccountCredentials (sampleAccount "digitalocean")
              (configOf "alpha")).1)
        (Err ErrNotFound)
  ∈ trace (exec env (addNode handler (request "" "[{}]") http.NewRecorder)
             (failingProvisioner ErrNotFound))
  ∧ value (exec env (addNode handler (request "" "[{}]") http.NewRecorder)
             (failingProvisioner ErrNotFound))
    = http.Error http.NewRecorder (Error ErrNotFound) http.StatusNotFound
  ∧ http.Code
      (value (exec env (addNode handler (request "" "[{}]") http.NewRecorder)
                (sampleWorld "digitalocean" sampleRecords))) = 202
  ∧ ∃ ev tasks,
      ev ∈ trace (exec env (addNode handler (request "" "[{}]") http.NewRecorder)
                    (sampleWorld "digitalocean" sampleRecords))
      ∧ provisioned ev = Some tasks.
Proof.
  assert (event (ProvisionNodes [∅] sampleKube
                   (FillCloudAccountCredentials (sampleAccount "digitalocean")
                      (configOf "alpha")).1)
                (Err ErrNotFound)
          ∈ trace (exec env (addNode handler (request "" "[{}]") http.NewRecorder)
                     (failingProvisioner ErrNotFound))) as Hev.
  { vm_compute. repeat constructor. }
  assert (http.Code
            (value (exec env (addNode handler (request "" "[{}]") http.NewRecorder)
                      (sampleWorld "digitalocean" sampleRecords))) = 202)
    as Hcode by (vm_compute; reflexivity).
  split; [exact Hev |]. split; [| split; [exact Hcode |]].
  - destruct (addNode_provision_error env decodeNodeProfiles encodeStrings
                NewConfig AddMaster FillCloudAccountCredentials handler
                (request "" "[{}]") http.NewRecorder
                (failingProvisioner ErrNotFound)) as (Herr & _).
    exact (Herr _ ErrNotFound Hev I eq_refl).
  - destruct (addNode_provision_error env decodeNodeProfiles encodeStrings
                NewConfig AddMaster FillCloudAccountCredentials handler
                (request "" "[{}]") http.NewRecorder
                (sampleWorld "digitalocean" sampleRecords)) as (_ & H202 & _).
    exact (H202 eq_refl Hcode).
Defined.

Lemma deleteNode_config_snapshot_witness :
  value (exec env (deleteNode handler (request "n1" "") http.NewRecorder)
           (sampleWorld "digitalocean" sampleRecords))
  = (http.mkRecorder 202 true "",
     Some (kube.mkGoroutine "done/t1"
             (kube.deleteNodeCompletion handler sampleKube "alpha" "n1")))
  ∧ ∃ k acc t config out,
      (env (SvcGet "alpha") (sampleWorld "digitalocean" sampleRecords)).1 = Ok k
      ∧ config = (FillCloudAccountCredentials acc
                    {| steps.ClusterName := model.Name k;
                       steps.CloudAccountName := model.AccountName k;
                       steps.Credentials := ∅;
                       steps.Node := node.mkNode "n1" |}).1
      ∧ last (callOf <$> trace (exec env
                 (deleteNode handler (request "n1" "") http.NewRecorder)
                 (sampleWorld "digitalocean" sampleRecords)))
        = Some (TaskRun t config out)
      ∧ ∀ sig w',
          value (exec env
                   (kube.deleteNodeCompletion handler sampleKube "alpha" "n1" sig)
                   w')
          = model.withNodes k (delete "n1" (model.Nodes k))
          ∧ config = (FillCloudAccountCredentials acc
                        {| steps.ClusterName := "alpha";
                           steps.CloudAccountName := "acc";
                           steps.Credentials := ∅;
                           steps.Node := node.mkNode "n1" |}).1.
Proof.
  assert (value (exec env (deleteNode handler (request "n1" "") http.NewRecorder)
                   (sampleWorld "digitalocean" sampleRecords))
          = (http.mkRecorder 202 true "",
             Some (kube.mkGoroutine "done/t1"
                     (kube.deleteNodeCompletion handler sampleKube "alpha" "n1"))))
    as Hrun by (vm_compute; reflexivity).
  split; [exact Hrun |].
  destruct (deleteNode_config_snapshot env Prefix marshalTask SendNotFound
              SendUnknownError FillCloudAccountCredentials registry handler
              (request "n1" "") http.NewRecorder
              (sampleWorld "digitalocean" sampleRecords) _ _ Hrun)
    as (k & acc & t & config & out & Hget & Hcfg & Hlast & Hbody).
  exists k, acc, t, config, out.
  split; [exact Hget |]. split; [exact Hcfg |]. split; [exact Hlast |].
  intros sig w'. destruct (Hbody sig w') as (Hval & _ & _).
  split; [exact Hval |].
  assert (Ok sampleKube = Ok k) as Hk by (rewrite <- Hget; reflexivity).
  injection Hk as <-. exact Hcfg.
Defined.

Lemma deleteNode_master_witness :
  (env (SvcGet "alpha") (sampleWorld "digitalocean" sampleRecords)).1
  = Ok sampleKube
  ∧ is_Some (model.Masters sampleKube !! "m1")
  ∧ value (exec env (deleteNode handler (request "m1" "") http.NewRecorder)
             (sampleWorld "digitalocean" sampleRecords))
    = (http.Error http.NewRecorder "delete master node not allowed"
         http.StatusMethodNotAllowed, None)
  ∧ trace (exec env (deleteNode handler (request "m1" "") http.NewRecorder)
             (sampleWorld "digitalocean" sampleRecords))
    = [event (SvcGet "alpha") (Ok sampleKube)]
  ∧ world (exec env (deleteNode handler (request "m1" "") http.NewRecorder)
             (sampleWorld "digitalocean" sampleRecords))
    = sampleWorld "digitalocean" sampleRecords
  ∧ http.Code
      (value (exec env (deleteNode handler (request "m1" "") http.NewRecorder)
                (sampleWorld "digitalocean" sampleRecords))).1 = 405.
Proof.
  split; [vm_compute; reflexivity |]. split; [by eexists |].
  destruct (deleteNode_master env Prefix marshalTask SendNotFound
              SendUnknownError FillCloudAccountCredentials registry handler
              (request "m1" "") http.NewRecorder
              (sampleWorld "digitalocean" sampleRecords) sampleKube)
    as (Hval & Htrace & Hworld & Hcode).
  - vm_compute; reflexivity.
  - by eexists.
  - split; [exact Hval |]. split; [exact Htrace |]. split; [exact Hworld |].
    exact (proj1 (Hcode eq_refl)).
Defined.

Lemma getTasks_no_tasks_witness :
  http.Vars (request "" "") !! "kname" = Some "alpha"
  ∧ value (exec env (getKubeTasks handler "alpha")
             (sampleWorld "digitalocean" [("b1", "rec-b1")])) = Ok []
  ∧ value (exec env (getTasks handler (request "" "") http.NewRecorder)
             (sampleWorld "digitalocean" [("b1", "rec-b1")]))
    = http.Error http.NewRecorder "" http.StatusNotFound
  ∧ http.Code
      (value (exec env (getTasks handler (request "" "") http.NewRecorder)
                (sampleWorld "digitalocean" [("b1", "rec-b1")]))) = 404.
Proof.
  split; [vm_compute; reflexivity |]. split; [vm_compute; reflexivity |].
  destruct (getTasks_no_tasks env Prefix unmarshalTask encodeTaskDTOs
              SendNotFound SendUnknownError handler (request "" "")
              http.NewRecorder (sampleWorld "digitalocean" [("b1", "rec-b1")])
              "alpha") as (Hval & Hcode).
  - vm_compute; reflexivity.
  - vm_compute; reflexivity.
  - split; [exact Hval |]. exact (proj1 (Hcode eq_refl)).
Defined.

End Samples.

(** * Further properties of the handler *)

(** ** The listing, its errors, and getTasks *)

Lemma Cause_Wrap (err : error) (msg : string) : Cause (Wrap err msg) = Cause err.
Proof. reflexivity. Qed.

Lemma IsNotFound_Wrap (err : error) (msg : string) :
  IsNotFound (Wrap err msg) = IsNotFound err.
Proof. reflexivity. Qed.

Section ListingFacts.

Context {W : Type}.
Variable env : ∀ c : Call, W → Ans c * W.
Variable Prefix : string.
Variable unmarshalTask : string → result workflows.Task.
Variable encodeTaskDTOs : list kube.taskDTO → result string.
Variable SendNotFound :
  http.ResponseRecorder → string → error → http.ResponseRecorder.
Variable SendUnknownError :
  http.ResponseRecorder → error → http.ResponseRecorder.

Local Abbreviation inCluster := kube.inCluster.
Local Abbreviation rangeData := (kube.rangeData unmarshalTask).
Local Abbreviation getKubeTasks := (kube.getKubeTasks Prefix unmarshalTask).
Local Abbreviation deleteClusterTasks :=
  (kube.deleteClusterTasks Prefix unmarshalTask).
Local Abbreviation getTasks :=
  (kube.getTasks Prefix unmarshalTask encodeTaskDTOs SendNotFound
     SendUnknownError).
Local Abbreviation decodesTo data ts :=
  (Forall2 (λ v task, unmarshalTask v = Ok task) data ts).

Lemma rangeData_app kubeName pre rest ts tasks :
  decodesTo pre ts →
  rangeData kubeName (pre ++ rest) tasks
  = rangeData kubeName rest (tasks ++ filter (λ t, inCluster kubeName t) ts).
Proof.
  intros Hdec; revert tasks.
  induction Hdec as [| v task pre ts Hv _ IH]; intros tasks; simpl.
  - by rewrite filter_nil, app_nil_r.
  - rewrite Hv, filter_cons.
    destruct (inCluster kubeName task) eqn:Hin; case_decide as Hd;
      simpl in Hd; try contradiction.
    + by rewrite IH, <- app_assoc.
    + apply IH.
Qed.

(** X1.  getKubeTasks stops at the first record that does not decode: when
    the records before it decode, the error returned is that record's decode
    error, wrapped, whatever follows it in the scan. *)
Theorem getKubeTasks_first_error h kubeName w pre v post ts err :
  (env (RepoGetAll Prefix) w).1 = Ok (pre ++ v :: post) →
  decodesTo pre ts →
  unmarshalTask v = Err err →
  value (exec env (getKubeTasks h kubeName) w)
  = Err (Wrap err "unmarshal task data").
Proof.
  intros Hget Hdec Hv. rewrite exec_getKubeTasks; cbn [value]. rewrite Hget.
  rewrite (rangeData_app _ _ _ _ _ Hdec). simpl. by rewrite Hv.
Qed.

Lemma rangeData_error kubeName data tasks err :
  rangeData kubeName data tasks = Err err →
  ∃ v e, v ∈ data ∧ unmarshalTask v = Err e
         ∧ err = Wrap e "unmarshal task data".
Proof.
  revert tasks; induction data as [| v data IH]; intros tasks; simpl; [done |].
  destruct (unmarshalTask v) as [task | e] eqn:Hv.
  - intros Hr.
    assert (∃ tasks', rangeData kubeName data tasks' = Err err) as [tasks' Hr'].
    { destruct (inCluster kubeName task); eauto. }
    destruct (IH _ Hr') as (v' & e' & ? & ? & ?).
    exists v', e'. rewrite elem_of_cons. eauto.
  - intros [= <-]. exists v, e. rewrite elem_of_cons. eauto.
Qed.

(** X2.  getKubeTasks fails only when the scan of the namespace fails or a
    record of it does not decode, and the error it returns is that failure
    wrapped with a message: it has the same cause, so a NotFound from the
    repository or the decoder is still NotFound to the caller. *)
Theorem getKubeTasks_error_cause h kubeName w err :
  value (exec env (getKubeTasks h kubeName) w) = Err err →
  ∃ e,
    Cause err = Cause e
    ∧ IsNotFound err = IsNotFound e
    ∧ (((env (RepoGetAll Prefix) w).1 = Err e
        ∧ err = Wrap e "get cluster tasks")
       ∨ ∃ data v,
           (env (RepoGetAll Prefix) w).1 = Ok data
           ∧ v ∈ data ∧ unmarshalTask v = Err e
           ∧ err = Wrap e "unmarshal task data").
Proof.
  rewrite exec_getKubeTasks; cbn [value].
  destruct ((env (RepoGetAll Prefix) w).1) as [data | e] eqn:Hget.
  - intros (v & e & Hin & Hv & ->)%rangeData_error.
    exists e. do 2 (split; [done |]). right. by exists data, v.
  - intros [= <-]. exists e. do 2 (split; [done |]). by left.
Qed.

(** X3.  When the listing fails, getTasks answers SendNotFound for a NotFound
    error; for any other error it calls SendUnknownError and, not returning,
    goes on to http.Error(w, "", 404) on the nil task list.  If
    SendUnknownError has written the header, the status stays the one it set
    and the body it wrote is followed by one newline. *)
Theorem getTasks_listing_error h r rec w id err :
  http.Vars r !! "kname" = Some id →
  value (exec env (getKubeTasks h id) w) = Err err →
  let resp := value (exec env (getTasks h r rec) w) in
  (IsNotFound err = true → resp = SendNotFound rec id err)
  ∧ (IsNotFound err = false →
     resp = http.Error (SendUnknownError rec err) "" http.StatusNotFound
     ∧ (http.wroteHeader (SendUnknownError rec err) = true →
        http.Code resp = http.Code (SendUnknownError rec err)
        ∧ http.Body resp
          = http.Body (SendUnknownError rec err) +:+ http.newline)).
Proof.
  intros Hid Herr resp.
  assert (resp = if IsNotFound err then SendNotFound rec id err
                 else http.Error (SendUnknownError rec err) ""
                        http.StatusNotFound) as ->.
  { subst resp. unfold kube.getTasks. rewrite Hid, exec_bind. cbn [value world].
    rewrite Herr. by destruct (IsNotFound err). }
  split; intros ->; [done |]. split; [done |]. intros Hw.
  unfold http.Error, http.Write, http.WriteHeader. rewrite Hw; simpl.
  by rewrite Hw.
Qed.

(** X4.  getTasks only reads: without a cluster name it answers 400 and calls
    nothing; with one, its single call is the scan of the task namespace,
    whatever the scan answers. *)
Theorem getTasks_reads_once h r rec w :
  let o := exec env (getTasks h r rec) w in
  (http.Vars r !! "kname" = None →
   value o = http.Error rec "need name of a cluster" http.StatusBadRequest
   ∧ trace o = [] ∧ world o = w)
  ∧ (is_Some (http.Vars r !! "kname") →
     trace o = [event (RepoGetAll Prefix) (env (RepoGetAll Prefix) w).1]
     ∧ world o = (env (RepoGetAll Prefix) w).2)
  ∧ ∀ ev, ev ∈ trace o → mutating (callOf ev) = false.
Proof.
  intros o; subst o. unfold kube.getTasks.
  destruct (http.Vars r !! "kname") as [id |] eqn:Hid.
  - rewrite exec_bind, exec_getKubeTasks. cbn [value world trace].
    split; [done |].
    destruct (match (env (RepoGetAll Prefix) w).1 with
              | Ok data => rangeData id data []
              | Err err => Err (Wrap err "get cluster tasks")
              end) as [tasks | err]; [| destruct (IsNotFound err)];
      cbn [exec value world trace app];
      (split; [done |]); by intros ev ->%list_elem_of_singleton.
  - cbn [exec value world trace]. split; [done |].
    split; [by intros [? ?] |]. by intros ev ?%elem_of_nil.
Qed.

(** The body of the loop of deleteClusterTasks. *)
Local Abbreviation deleteBody :=
  (λ task : workflows.Task,
     r <- call (RepoDelete Prefix (workflows.ID task));;
     match r with
     | Some err =>
         call (Logf LogWarn
           ("delete task " +:+ workflows.ID task +:+ ": " +:+ Error err))
     | None => Ret tt
     end).



End ListingFacts.

(** ** The deleting handlers and their goroutines *)

(** One step of an execution under [env]: name the answer of the next call,
    or split on the next scrutinee. *)
Ltac step_exec env :=
  cbn [exec bind call value world trace app];
  match goal with
  | |- context [env ?c ?w] =>
      let x := fresh "x" in
      destruct (env c w) as [x ?] eqn:?;
      lazymatch eval hnf in (Ans c) with
      | result _ => destruct x
      | option _ => destruct x
      | unit => destruct x
      | _ => idtac
      end
  | |- context [match ?e with _ => _ end] => destruct e eqn:?
  end.

Ltac split_trace H :=
  repeat (apply elem_of_cons in H as [H | H]);
  try (by apply elem_of_nil in H).

Lemma withNodes_same (k : model.Kube) : model.withNodes k (model.Nodes k) = k.
Proof. by destruct k. Qed.

Section DeletingFacts.

Context {W : Type}.
Variable env : ∀ c : Call, W → Ans c * W.
Variable Prefix : string.
Variable unmarshalTask : string → result workflows.Task.
Variable marshalTask : workflows.Task → string.
Variable SendNotFound :
  http.ResponseRecorder → string → error → http.ResponseRecorder.
Variable SendUnknownError :
  http.ResponseRecorder → error → http.ResponseRecorder.
Variable FillCloudAccountCredentials :
  model.CloudAccount → steps.Config → steps.Config * option error.
Variable registry : gmap string (list string).

Local Abbreviation deleteKubeCompletion :=
  (kube.deleteKubeCompletion Prefix unmarshalTask).
Local Abbreviation deleteKube :=
  (kube.deleteKube Prefix unmarshalTask marshalTask SendNotFound
     SendUnknownError FillCloudAccountCredentials registry).
Local Abbreviation deleteNode :=
  (kube.deleteNode Prefix marshalTask SendNotFound SendUnknownError
     FillCloudAccountCredentials registry).
Local Abbreviation knameOf r := (default "" (http.Vars r !! "kname")).
Local Abbreviation nodeNameOf r := (default "" (http.Vars r !! "nodename")).

(** X6.  deleteKube itself never deletes or saves anything: the cluster
    record and the task records are only touched by its goroutine.  It starts
    the goroutine exactly when it has called Run, as its last call, and then
    it has written 202 and the goroutine waits on the channel Run returned;
    without a goroutine Run was not called. *)
Theorem deleteKube_goroutine h r rec w :
  let o := exec env (deleteKube h r rec) w in
  (∀ ev, ev ∈ trace o → destructive (callOf ev) = false)
  ∧ (∀ g, (value o).2 = Some g →
          (value o).1 = http.WriteHeader rec http.StatusAccepted
          ∧ kube.body g = deleteKubeCompletion h (knameOf r)
          ∧ ∃ t config out,
              last (trace o) = Some (event (TaskRun t config out) (kube.awaits g)))
  ∧ ((value o).2 = None → ∀ ev, ev ∈ trace o → isTaskRun ev = false).
Proof.
  intros o; subst o. unfold kube.deleteKube, kube.NewTask.
  repeat step_exec env; cbn [exec bind call value world trace app fst snd].
  all: split; [by intros ev Hev; split_trace Hev; subst ev |].
  all: split; [| intros Hnone ev Hev; try discriminate Hnone;
                 by split_trace Hev; subst ev].
  all: intros g [= <-]; cbn [kube.body kube.awaits].
  all: do 2 (split; [done |]); by eexists _, _, _.
Qed.

(** X7.  When deleteKube calls Run, the cluster and its cloud account were
    found, the config handed to Run is the one built from the cluster's name
    and account name with the account's credentials filled in without error,
    and the log writer is the one obtained for the task's ID. *)
Theorem deleteKube_run_arguments h r rec w t config out :
  TaskRun t config out ∈ callOf <$> trace (exec env (deleteKube h r rec) w) →
  ∃ k acc,
    (env (SvcGet (knameOf r)) w).1 = Ok k
    ∧ event (AccountGet (model.AccountName k)) (Ok acc)
      ∈ trace (exec env (deleteKube h r rec) w)
    ∧ FillCloudAccountCredentials acc
        {| steps.ClusterName := model.Name k;
           steps.CloudAccountName := model.AccountName k;
           steps.Credentials := ∅;
           steps.Node := node.mkNode "" |} = (config, None)
    ∧ event (GetWriter (workflows.ID t)) (Ok out)
      ∈ trace (exec env (deleteKube h r rec) w).
Proof.
  unfold kube.deleteKube, kube.NewTask.
  repeat step_exec env; cbn [exec bind call value world trace app fst snd].
  all: cbn [fmap list_fmap callOf event projT1].
  all: intros Hrun; split_trace Hrun; try discriminate Hrun.
  all: injection Hrun as <- <- <-.
  all: eexists _, _; split; [done |]; rewrite !elem_of_cons.
  all: split; [by right; left |]; split; [done |].
  all: cbn [workflows.ID]; do 4 right; by left.
Qed.

(** X8.  A deleteNode request for a node that is neither a master nor in the
    cluster's node set is answered with http.NotFound after the lookup of the
    cluster alone: the account service is not consulted, no task is created
    and no goroutine is started. *)
Theorem deleteNode_unknown_node h r rec w k :
  (env (SvcGet (knameOf r)) w).1 = Ok k →
  model.Masters k !! nodeNameOf r = None →
  model.Nodes k !! nodeNameOf r = None →
  let o := exec env (deleteNode h r rec) w in
  value o = (http.NotFound rec, None)
  ∧ trace o = [event (SvcGet (knameOf r)) (Ok k)]
  ∧ world o = (env (SvcGet (knameOf r)) w).2.
Proof.
  intros Hget Hmaster Hnode o; subst o. unfold kube.deleteNode.
  rewrite exec_bind, exec_call. cbn [value world trace]. rewrite Hget.
  rewrite bool_decide_false by (rewrite Hmaster; by intros [? ?]).
  rewrite bool_decide_false by (rewrite Hnode; by intros [? ?]).
  by cbn [negb exec value world trace app].
Qed.

(** X9.  deleteNode itself never deletes or saves anything.  It starts its
    goroutine only for a node that is in the node set of the cluster it
    looked up and is not one of its masters, after calling Run as its last
    call and writing 202; without a goroutine Run was not called. *)
Theorem deleteNode_goroutine h r rec w :
  let o := exec env (deleteNode h r rec) w in
  (∀ ev, ev ∈ trace o → destructive (callOf ev) = false)
  ∧ (∀ g, (value o).2 = Some g →
          (value o).1 = http.WriteHeader rec http.StatusAccepted
          ∧ ∃ k,
              (env (SvcGet (knameOf r)) w).1 = Ok k
              ∧ model.Masters k !! nodeNameOf r = None
              ∧ is_Some (model.Nodes k !! nodeNameOf r)
              ∧ kube.body g
                = kube.deleteNodeCompletion h k (knameOf r) (nodeNameOf r)
              ∧ ∃ t config out,
                  last (trace o)
                  = Some (event (TaskRun t config out) (kube.awaits g)))
  ∧ ((value o).2 = None → ∀ ev, ev ∈ trace o → isTaskRun ev = false).
Proof.
  intros o; subst o. unfold kube.deleteNode, kube.NewTask.
  repeat step_exec env; cbn [exec bind call value world trace app fst snd].
  all: split; [by intros ev Hev; split_trace Hev; subst ev |].
  all: split; [| intros Hnone ev Hev; try discriminate Hnone;
                 by split_trace Hev; subst ev].
  all: intros g [= <-]; cbn [kube.body kube.awaits].
  all: split; [done |]; eexists; split; [done |].
  all: repeat match goal with
         | H : bool_decide _ = false |- _ => apply bool_decide_eq_false in H
         | H : negb (bool_decide _) = false |- _ =>
             apply negb_false_iff, bool_decide_eq_true in H
         end.
  all: split; [by apply eq_None_not_Some |]; split; [done |].
  all: split; [done |]; by eexists _, _, _.
Qed.

(** X10.  The goroutine of deleteNode leaves a kube object that differs from
    the one it captured only in its node set: the deleted node is gone, every
    other node and every other field is as it was.  Whatever it received and
    whatever the save answers, its only call that changes a store is one
    svc.Create of that object. *)
Theorem deleteNodeCompletion_frame h k kname nodeName sig w :
  let o := exec env (kube.deleteNodeCompletion h k kname nodeName sig) w in
  model.Nodes (value o) !! nodeName = None
  ∧ (∀ n, n ≠ nodeName → model.Nodes (value o) !! n = model.Nodes k !! n)
  ∧ model.withNodes (value o) (model.Nodes k) = k
  ∧ filter (λ c, mutating c) (callOf <$> trace o) = [SvcCreate (value o)].
Proof.
  intros o; subst o. unfold kube.deleteNodeCompletion.
  repeat step_exec env; cbn [exec bind call value world trace app].
  all: cbn [model.Nodes model.withNodes].
  all: split; [apply lookup_delete_eq |].
  all: split; [by intros n Hn; apply lookup_delete_ne |].
  all: split; [by destruct k |]; done.
Qed.

(** X11.  For a node that is no longer in the node set, the goroutine of
    deleteNode saves the kube object unchanged. *)
Theorem deleteNodeCompletion_absent_node h k kname nodeName sig w :
  model.Nodes k !! nodeName = None →
  let o := exec env (kube.deleteNodeCompletion h k kname nodeName sig) w in
  value o = k ∧ SvcCreate k ∈ callOf <$> trace o.
Proof.
  intros Hnode o; subst o.
  destruct (exec_deleteNodeCompletion env h k kname nodeName sig w)
    as (Hval & [i Hi] & _).
  rewrite (delete_id _ _ Hnode), withNodes_same in Hval, Hi.
  split; [exact Hval |]. rewrite <- list_lookup_fmap in Hi.
  by eapply list_elem_of_lookup_2.
Qed.

End DeletingFacts.

(** ** addNode, createKube, getKube and NewHandler *)

Section EntityFacts.

Context {W : Type}.
Variable env : ∀ c : Call, W → Ans c * W.
Variable decodeNodeProfiles : string → result (list profile.NodeProfile).
Variable encodeStrings : list string → result string.
Variable NewConfig : string → string → string → profile.Profile → steps.Config.
Variable AddMaster : steps.Config → option node.Node → steps.Config.
Variable FillCloudAccountCredentials :
  model.CloudAccount → steps.Config → steps.Config * option error.
Variable decodeKube : string → result model.Kube.
Variable encodeKube : model.Kube → result string.
Variable ValidateStruct : model.Kube → bool * option error.
Variable SendInvalidJSON :
  http.ResponseRecorder → error → http.ResponseRecorder.
Variable SendValidationFailed :
  http.ResponseRecorder → option error → http.ResponseRecorder.
Variable SendNotFound :
  http.ResponseRecorder → string → error → http.ResponseRecorder.
Variable SendUnknownError :
  http.ResponseRecorder → error → http.ResponseRecorder.

Local Abbreviation addNode :=
  (kube.addNode decodeNodeProfiles encodeStrings NewConfig AddMaster
     FillCloudAccountCredentials).
Local Abbreviation createKube :=
  (kubeapi.createKube decodeKube ValidateStruct SendInvalidJSON
     SendValidationFailed SendUnknownError).
Local Abbreviation getKube :=
  (kubeapi.getKube encodeKube SendNotFound SendUnknownError).
Local Abbreviation knameOf r := (default "" (http.Vars r !! "kname")).

(** The profile addNode derives from the cluster and its account. *)
Local Abbreviation kubeProfile k acc :=
  {| profile.Provider := model.Provider acc;
     profile.Region := model.Region k;
     profile.Arch := model.Arch k;
     profile.OperatingSystem := model.OperatingSystem k;
     profile.UbuntuVersion := model.OperatingSystemVersion k;
     profile.DockerVersion := model.DockerVersion k;
     profile.K8SVersion := model.K8SVersion k;
     profile.HelmVersion := model.HelmVersion k;
     profile.NetworkType := model.Type_ (model.Networking_ k);
     profile.CIDR := model.CIDR (model.Networking_ k);
     profile.FlannelVersion := model.Version (model.Networking_ k);
     profile.NodesProfiles := [∅];
     profile.RBACEnabled := model.RBACEnabled k |}.

(** X12.  addNode on a body that does not decode as a list of node profiles
    calls nothing but the lookup of the cluster: neither the account service
    nor the provisioner is called.  It answers 400 with the decoder's message
    when the cluster was found, http.NotFound when the lookup failed with
    NotFound, and 500 with the lookup's message otherwise. *)
Theorem addNode_bad_body h r rec w err :
  decodeNodeProfiles (http.ReqBody r) = Err err →
  let o := exec env (addNode h r rec) w in
  trace o = [event (SvcGet (knameOf r)) (env (SvcGet (knameOf r)) w).1]
  ∧ world o = (env (SvcGet (knameOf r)) w).2
  ∧ value o = match (env (SvcGet (knameOf r)) w).1 with
              | Ok _ => http.Error rec (Error err) http.StatusBadRequest
              | Err e =>
                  if IsNotFound e then http.NotFound rec
                  else http.Error rec (Error e) http.StatusInternalServerError
              end.
Proof.
  intros Hbody o; subst o. unfold kube.addNode.
  rewrite exec_bind, exec_call. cbn [value world trace]. rewrite Hbody.
  destruct ((env (SvcGet (knameOf r)) w).1) as [k | e];
    [| destruct (IsNotFound e)]; by cbn [exec value world trace app].
Qed.

(** X13.  addNode on a cluster without masters answers 404 "no master found"
    once the cluster and its account were found: no node is picked and the
    provisioner is not called. *)
Theorem addNode_no_master h r rec w k nodeProfiles acc :
  (env (SvcGet (knameOf r)) w).1 = Ok k →
  decodeNodeProfiles (http.ReqBody r) = Ok nodeProfiles →
  (env (AccountGet (model.AccountName k)) (env (SvcGet (knameOf r)) w).2).1
  = Ok acc →
  size (model.Masters k) = 0%nat →
  let o := exec env (addNode h r rec) w in
  value o = http.Error rec "no master found" http.StatusNotFound
  ∧ trace o = [event (SvcGet (knameOf r)) (Ok k);
               event (AccountGet (model.AccountName k)) (Ok acc)].
Proof.
  intros Hget Hbody Hacc Hsize o; subst o. unfold kube.addNode.
  rewrite exec_bind, exec_call. cbn [value world trace]. rewrite Hget, Hbody.
  rewrite exec_bind, exec_call. cbn [value world trace]. rewrite Hacc.
  rewrite bool_decide_false by (rewrite Hsize; intros Hne; by apply Hne).
  by cbn [exec value world trace app].
Qed.

(** X14.  When addNode calls the provisioner, it does so with the node
    profiles decoded from the body, the cluster the lookup returned, which
    has a master, and the config made by NewConfig from that cluster and its
    account, with the master that was picked added and the credentials filled
    in without error. *)
Theorem addNode_provision_arguments h r rec w nodeProfiles k config :
  ProvisionNodes nodeProfiles k config
  ∈ callOf <$> trace (exec env (addNode h r rec) w) →
  (env (SvcGet (knameOf r)) w).1 = Ok k
  ∧ decodeNodeProfiles (http.ReqBody r) = Ok nodeProfiles
  ∧ size (model.Masters k) ≠ 0%nat
  ∧ ∃ acc master,
      event (AccountGet (model.AccountName k)) (Ok acc)
      ∈ trace (exec env (addNode h r rec) w)
      ∧ event (GetRandomNode (model.Masters k)) master
        ∈ trace (exec env (addNode h r rec) w)
      ∧ FillCloudAccountCredentials acc
          (AddMaster
             (NewConfig (model.Name k) "" (model.AccountName k)
                (kubeProfile k acc))
             master) = (config, None).
Proof.
  unfold kube.addNode.
  repeat step_exec env; cbn [exec bind call value world trace app fst snd].
  all: cbn [fmap list_fmap callOf event projT1].
  all: intros Hcall; split_trace Hcall; try discriminate Hcall.
  all: injection Hcall as <- <- <-.
  all: do 2 (split; [done |]).
  all: match goal with
       | H : bool_decide _ = true |- _ => apply bool_decide_eq_true in H
       end.
  all: split; [done |]; eexists _, _; rewrite !elem_of_cons.
  all: split; [by right; left |]; split; [by do 2 right; left | done].
Qed.

(** X15.  addNode never saves or deletes a cluster, never writes to the task
    repository and never runs a task itself: the only call by which it
    changes anything is the provisioner, and it calls it at most once. *)
Theorem addNode_only_provisions h r rec w :
  let o := exec env (addNode h r rec) w in
  (∀ ev, ev ∈ trace o → mutating (callOf ev) = true → isProvisionNodes ev = true)
  ∧ (length (List.filter isProvisionNodes (trace o)) ≤ 1)%nat.
Proof.
  intros o; subst o. unfold kube.addNode.
  repeat step_exec env; cbn [exec bind call value world trace app].
  all: split; [by intros ev Hev; split_trace Hev; subst ev |].
  all: cbn; lia.
Qed.

(** X16.  createKube calls svc.Create only with the kube that the body
    decoded to and that passed validation; when the body does not decode or
    the kube does not validate, it calls nothing.  When svc.Create returns
    nil it writes 202, and when it returns an error it answers
    SendUnknownError with that error. *)
Theorem createKube_validates_first h r rec w :
  let o := exec env (createKube h r rec) w in
  (∀ k, SvcCreate k ∈ callOf <$> trace o →
        decodeKube (http.ReqBody r) = Ok k ∧ (ValidateStruct k).1 = true)
  ∧ (∀ ev, ev ∈ trace o → ∃ k, callOf ev = SvcCreate k)
  ∧ (∀ k,
       decodeKube (http.ReqBody r) = Ok k → (ValidateStruct k).1 = true →
       trace o = [event (SvcCreate k) (env (SvcCreate k) w).1]
       ∧ value o = match (env (SvcCreate k) w).1 with
                   | None => http.WriteHeader rec http.StatusAccepted
                   | Some err => SendUnknownError rec err
                   end)
  ∧ (∀ k,
       decodeKube (http.ReqBody r) = Ok k → (ValidateStruct k).1 = false →
       trace o = [] ∧ world o = w
       ∧ value o = SendValidationFailed rec (ValidateStruct k).2)
  ∧ (∀ err,
       decodeKube (http.ReqBody r) = Err err →
       trace o = [] ∧ world o = w ∧ value o = SendInvalidJSON rec err).
Proof.
  intros o; subst o. unfold kubeapi.createKube.
  destruct (decodeKube (http.ReqBody r)) as [k |] eqn:Hbody.
  - destruct (ValidateStruct k) as [[] verr] eqn:Hvalid; cbn [negb].
    + cbn [exec bind call].
      destruct (env (SvcCreate k) w) as [[err |] w1] eqn:Henv;
        cbn [exec value world trace fst snd fmap list_fmap callOf event projT1].
      all: split; [intros k' [= <-]%list_elem_of_singleton;
                   by rewrite Hvalid |].
      all: split; [intros ev ->%list_elem_of_singleton; by eexists |].
      all: split; [intros k' [= <-] _; by rewrite Henv |].
      all: split; [intros k' [= <-]; by rewrite Hvalid | done].
    + cbn [exec value world trace fmap list_fmap].
      split; [by intros k' ?%elem_of_nil |].
      split; [by intros ev ?%elem_of_nil |].
      split; [intros k' [= <-]; by rewrite Hvalid |].
      split; [intros k' [= <-]; by rewrite Hvalid | done].
  - cbn [exec value world trace fmap list_fmap].
    split; [by intros k' ?%elem_of_nil |].
    split; [by intros ev ?%elem_of_nil |].
    do 2 (split; [done |]). by intros err' [= <-].
Qed.

(** X17.  getKube only reads: its single call is the lookup of the cluster
    named in the request.  A cluster that is found and encodes is written as
    the response body, with status 200 on a fresh writer; a NotFound error
    of the lookup is answered by SendNotFound for that name. *)
Theorem getKube_reads_once h r rec w :
  let o := exec env (getKube h r rec) w in
  trace o = [event (SvcGet (knameOf r)) (env (SvcGet (knameOf r)) w).1]
  ∧ world o = (env (SvcGet (knameOf r)) w).2
  ∧ (∀ k buf,
       (env (SvcGet (knameOf r)) w).1 = Ok k → encodeKube k = Ok buf →
       value o = http.Write rec buf
       ∧ (http.wroteHeader rec = false →
          http.Code (value o) = 200
          ∧ http.Body (value o) = http.Body rec +:+ buf))
  ∧ (∀ err,
       (env (SvcGet (knameOf r)) w).1 = Err err → IsNotFound err = true →
       value o = SendNotFound rec (knameOf r) err).
Proof.
  intros o; subst o. unfold kubeapi.getKube.
  rewrite exec_bind, exec_call. cbn [value world trace].
  destruct ((env (SvcGet (knameOf r)) w).1) as [k | err].
  - destruct (encodeKube k) as [buf |] eqn:Henc;
      cbn [exec value world trace app].
    all: do 2 (split; [done |]); split; [| done].
    all: intros k' buf' [= <-] Hbuf; rewrite Henc in Hbuf;
      try discriminate Hbuf.
    injection Hbuf as <-. split; [done |]. intros Hfresh.
    unfold http.Write, http.WriteHeader. by rewrite Hfresh.
  - destruct (IsNotFound err) eqn:Hnf; cbn [exec value world trace app].
    all: do 2 (split; [done |]); split; [done |].
    all: intros err' [= <-] ?; congruence.
Qed.

(** X18.  In the handler NewHandler builds, the provider DigitalOcean reads
    as the pair of DigitalOcean workflows it was built with, and every other
    provider reads as the zero workflow set. *)
Theorem NewHandler_workflowSetOf (DigitalOcean deleteCluster deleteNode provider : string) :
  kube.workflowSetOf
    (kube.NewHandler DigitalOcean deleteCluster deleteNode) provider
  = if bool_decide (provider = DigitalOcean)
    then {| workflows.DeleteCluster := deleteCluster;
            workflows.DeleteNode := deleteNode |}
    else workflows.zeroWorkflowSet.
Proof.
  unfold kube.workflowSetOf, kube.NewHandler. cbn [kube.workflowMap].
  case_bool_decide as Hp.
  - subst provider. by rewrite lookup_singleton_eq.
  - by rewrite lookup_singleton_ne.
Qed.

End EntityFacts.

(** ** Clean-up against the in-memory repository *)

Lemma List_filter_stdpp {A : Type} (f : A → bool) (l : list A) :
  List.filter f l = filter (λ x, f x) l.
Proof.
  induction l as [| x l IH]; [done |]. simpl. rewrite filter_cons, IH.
  destruct (f x); by case_decide.
Qed.

Lemma filter_all {A : Type} (P : A → Prop) `{∀ x, Decision (P x)} (l : list A) :
  (∀ x, x ∈ l → P x) → filter P l = l.
Proof.
  induction l as [| x l IH]; [done |]. intros Hall.
  rewrite filter_cons, decide_True by (apply Hall; by left).
  f_equal. apply IH. intros y Hy. apply Hall. by right.
Qed.

Lemma filter_none {A : Type} (P : A → Prop) `{∀ x, Decision (P x)} (l : list A) :
  (∀ x, x ∈ l → ¬ P x) → filter P l = [].
Proof.
  induction l as [| x l IH]; [done |]. intros Hnone.
  rewrite filter_cons, decide_False by (apply Hnone; by left).
  apply IH. intros y Hy. apply Hnone. by right.
Qed.

Section StoreFacts.

Variable Prefix : string.
Variable unmarshalTask : string → result workflows.Task.

Local Abbreviation inCluster := kube.inCluster.
Local Abbreviation getKubeTasks := (kube.getKubeTasks Prefix unmarshalTask).
Local Abbreviation deleteClusterTasks :=
  (kube.deleteClusterTasks Prefix unmarshalTask).
Local Abbreviation deleteKubeCompletion :=
  (kube.deleteKubeCompletion Prefix unmarshalTask).
Local Abbreviation deleteBody :=
  (λ task : workflows.Task,
     r <- call (RepoDelete Prefix (workflows.ID task));;
     match r with
     | Some err =>
         call (Logf LogWarn
           ("delete task " +:+ workflows.ID task +:+ ": " +:+ Error err))
     | None => Ret tt
     end).

(** What a record of the namespace decodes to. *)
Local Abbreviation decodesAt :=
  (λ (kv : string * string) (task : workflows.Task),
     unmarshalTask kv.2 = Ok task ∧ workflows.ID task = kv.1).

Lemma scan_under (w : inmem.World) :
  inmem.env (RepoGetAll Prefix) w
  = (Ok ((store.under Prefix (inmem.records w)).*2), w).
Proof.
  cbn [inmem.env]. do 2 f_equal. unfold store.under.
  by rewrite <- list_fmap_compose.
Qed.

Lemma delete_records (key : string) (w : inmem.World) :
  inmem.records (inmem.env (RepoDelete Prefix key) w).2
  = filter (λ r, ¬ (r.1.1 = Prefix ∧ r.1.2 = key)) (inmem.records w)
  ∧ inmem.kubes (inmem.env (RepoDelete Prefix key) w).2 = inmem.kubes w.
Proof.
  cbn [inmem.env].
  assert (∀ recs : list (string * string * string),
            List.filter (λ r, negb (inmem.isKey Prefix key r)) recs
            = filter (λ r, ¬ (r.1.1 = Prefix ∧ r.1.2 = key)) recs) as Hfilter.
  { intros recs. rewrite List_filter_stdpp. apply list_filter_iff.
    intros r. unfold inmem.isKey.
    rewrite negb_True, andb_True, !bool_decide_spec. tauto. }
  destruct (existsb (inmem.isKey Prefix key) (inmem.records w)) eqn:Hex;
    cbn [snd inmem.setRecords inmem.records inmem.kubes].
  - by rewrite Hfilter.
  - split; [| done]. symmetry. apply filter_all. intros r Hr [Hp Hk].
    assert (existsb (inmem.isKey Prefix key) (inmem.records w) = true)
      as Htrue; [| congruence].
    apply existsb_exists. exists r. split; [by apply list_elem_of_In |].
    unfold inmem.isKey. by rewrite !bool_decide_true.
Qed.

Lemma deleteLoop_records (tasks : list workflows.Task) (w : inmem.World) :
  let w' := world (exec inmem.env (forRange tasks deleteBody) w) in
  inmem.records w'
  = filter (λ r, ¬ (r.1.1 = Prefix ∧ r.1.2 ∈ workflows.ID <$> tasks))
      (inmem.records w)
  ∧ inmem.kubes w' = inmem.kubes w.
Proof.
  revert w; induction tasks as [| task tasks IH]; intros w.
  - split; [| done]. symmetry. apply filter_all.
    by intros r _ [_ ?%elem_of_nil].
  - cbn [forRange]. rewrite exec_bind. cbn [world].
    set (w1 := world (exec inmem.env (deleteBody task) w)).
    assert (inmem.records w1
            = filter (λ r, ¬ (r.1.1 = Prefix ∧ r.1.2 = workflows.ID task))
                (inmem.records w)
            ∧ inmem.kubes w1 = inmem.kubes w) as [Hrec Hkubes].
    { subst w1. cbv beta. rewrite exec_bind, exec_call. cbn [value world].
      destruct (delete_records (workflows.ID task) w) as [Hr Hk].
      by destruct ((inmem.env (RepoDelete Prefix (workflows.ID task)) w).1). }
    destruct (IH w1) as [IHrec IHkubes]. cbv zeta in IHrec, IHkubes.
    rewrite IHrec, IHkubes, Hrec, Hkubes. split; [| done].
    rewrite list_filter_filter. apply list_filter_iff.
    intros r. rewrite fmap_cons, elem_of_cons. tauto.
Qed.

Lemma under_filter (D : list string) (recs : list (string * string * string)) :
  store.under Prefix
    (filter (λ r, ¬ (r.1.1 = Prefix ∧ r.1.2 ∈ D)) recs)
  = filter (λ kv, kv.1 ∉ D) (store.under Prefix recs).
Proof.
  unfold store.under. rewrite !List_filter_stdpp.
  induction recs as [| r recs IH]; [done |].
  rewrite !filter_cons.
  repeat (case_decide; rewrite ?fmap_cons, ?filter_cons); cbn [fst snd] in *.
  all: repeat match goal with
         | H : Is_true (bool_decide _) |- _ => apply bool_decide_unpack in H
         | H : ¬ Is_true (bool_decide _) |- _ => rewrite bool_decide_spec in H
         end.
  all: try tauto.
  all: try (f_equal; exact IH).
  all: exact IH.
Qed.

Lemma keyed_decoded (l : list (string * string)) :
  (∀ key v, (key, v) ∈ l →
            ∃ task, unmarshalTask v = Ok task ∧ workflows.ID task = key) →
  ∃ ts, Forall2 decodesAt l ts.
Proof.
  induction l as [| [key v] l IH]; intros Hall; [by exists [] |].
  destruct (Hall key v) as (task & Hv & Hid); [by left |].
  destruct IH as [ts Hts]; [intros; apply Hall; by right |].
  exists (task :: ts). by constructor.
Qed.

Lemma decoded_ids (l : list (string * string)) (ts : list workflows.Task) :
  Forall2 decodesAt l ts → workflows.ID <$> ts = l.*1.
Proof. induction 1 as [| kv t l ts [_ Hid] _ IH]; [done |]. cbn. by f_equal. Qed.

Lemma decoded_values (l : list (string * string)) (ts : list workflows.Task) :
  Forall2 decodesAt l ts →
  Forall2 (λ v task, unmarshalTask v = Ok task) (l.*2) ts.
Proof. induction 1 as [| kv t l ts [Hv _] _ IH]; by constructor. Qed.

Lemma decoded_filter (Q : workflows.Task → Prop) `{∀ t, Decision (Q t)}
      (D : list string) (l : list (string * string)) (ts : list workflows.Task) :
  Forall2 decodesAt l ts →
  Forall (λ t, workflows.ID t ∈ D ↔ Q t) ts →
  Forall2 decodesAt (filter (λ kv, kv.1 ∉ D) l) (filter (λ t, ¬ Q t) ts).
Proof.
  induction 1 as [| kv t l ts [Hv Hid] _ IH]; [constructor |].
  intros [Ht Hts]%Forall_cons. rewrite !filter_cons.
  destruct (decide (Q t)) as [Hq | Hq].
  - rewrite decide_False by (rewrite <- Hid, Ht; tauto).
    rewrite decide_False by tauto. by apply IH.
  - rewrite decide_True by (rewrite <- Hid, Ht; tauto).
    rewrite decide_True by tauto. constructor; [done | by apply IH].
Qed.

(** The cluster names of a task: at most one. *)
Lemma inCluster_unique (name other : string) (task : workflows.Task) :
  inCluster name task → inCluster other task → name = other.
Proof.
  unfold kube.inCluster. destruct (workflows.Config task); [| done].
  rewrite !bool_decide_spec. congruence.
Qed.

(** The listing of a cluster in a well-formed store, before and after the
    tasks of [name] were deleted from it. *)
Lemma listing_after_cleanup h (name : string) (w w' : inmem.World) :
  store.keyedByID unmarshalTask Prefix (inmem.records w) →
  inmem.records w'
  = filter (λ r, ¬ (r.1.1 = Prefix ∧ r.1.2 ∈ workflows.ID
                      <$> match value (exec inmem.env (getKubeTasks h name) w) with
                          | Ok tasks => tasks
                          | Err _ => []
                          end))
      (inmem.records w) →
  value (exec inmem.env (getKubeTasks h name) w') = Ok []
  ∧ (∀ other, other ≠ name →
              value (exec inmem.env (getKubeTasks h other) w')
              = value (exec inmem.env (getKubeTasks h other) w))
  ∧ store.keyedByID unmarshalTask Prefix (inmem.records w').
Proof.
  intros [Hnodup Hkeyed] Hrec.
  destruct (keyed_decoded _ Hkeyed) as [ts Hts].
  assert (∀ other, value (exec inmem.env (getKubeTasks h other) w)
                   = Ok (filter (λ t, inCluster other t) ts)) as Hbefore.
  { intros other. rewrite exec_getKubeTasks, scan_under. cbn [fst value].
    by rewrite (rangeData_decoded _ _ _ _ _ (decoded_values _ _ Hts)). }
  rewrite Hbefore in Hrec.
  set (D := workflows.ID <$> filter (λ t, inCluster name t) ts) in Hrec.
  assert (NoDup (workflows.ID <$> ts)) as Hids
    by (by rewrite (decoded_ids _ _ Hts)).
  assert (Forall (λ t, workflows.ID t ∈ D ↔ inCluster name t) ts) as HD.
  { apply Forall_forall. intros t Ht. subst D. split.
    - intros (t' & Hid & [Hin' Ht']%list_elem_of_filter)%list_elem_of_fmap.
      by rewrite (NoDup_fmap_eq workflows.ID ts t t' Hids Ht Ht' Hid).
    - intros Hin. apply list_elem_of_fmap. exists t.
      by rewrite list_elem_of_filter. }
  pose proof (decoded_filter (λ t, inCluster name t) D _ _ Hts HD) as Hts'.
  assert (store.under Prefix (inmem.records w')
          = filter (λ kv, kv.1 ∉ D) (store.under Prefix (inmem.records w)))
    as Hunder by (by rewrite Hrec, under_filter).
  assert (∀ other, value (exec inmem.env (getKubeTasks h other) w')
                   = Ok (filter (λ t, inCluster other t)
                           (filter (λ t, ¬ inCluster name t) ts))) as Hafter.
  { intros other. rewrite exec_getKubeTasks, scan_under. cbn [fst value].
    rewrite Hunder.
    by rewrite (rangeData_decoded _ _ _ _ _ (decoded_values _ _ Hts')). }
  split; [| split].
  - rewrite Hafter. f_equal. apply filter_none.
    by intros t [? _]%list_elem_of_filter.
  - intros other Hother. rewrite Hafter, Hbefore. f_equal.
    rewrite list_filter_filter. apply list_filter_iff. intros t.
    split; [tauto |]. intros Hin. split; [done |]. intros Hin'.
    by destruct Hother; apply (inCluster_unique other name t).
  - unfold store.keyedByID. rewrite Hunder. split.
    + eapply sublist_NoDup; [exact Hnodup |].
      apply fmap_sublist, sublist_filter.
    + intros key v [_ Hkv]%list_elem_of_filter. by apply Hkeyed.
Qed.

Lemma world_deleteClusterTasks h (name : string) (w : inmem.World) :
  let w' := world (exec inmem.env (deleteClusterTasks h name) w) in
  inmem.records w'
  = filter (λ r, ¬ (r.1.1 = Prefix ∧ r.1.2 ∈ workflows.ID
                      <$> match value (exec inmem.env (getKubeTasks h name) w) with
                          | Ok tasks => tasks
                          | Err _ => []
                          end))
      (inmem.records w)
  ∧ inmem.kubes w' = inmem.kubes w.
Proof.
  unfold kube.deleteClusterTasks. rewrite exec_bind. cbn zeta.
  assert (world (exec inmem.env (getKubeTasks h name) w) = w) as ->
    by (by rewrite exec_getKubeTasks, scan_under).
  destruct (value (exec inmem.env (getKubeTasks h name) w)) as [tasks | err].
  - rewrite exec_bind. cbn [exec value world]. apply deleteLoop_records.
  - cbn [exec value world]. split; [| done]. symmetry. apply filter_all.
    by intros r _ [_ ?%elem_of_nil].
Qed.

(** X19.  Against the in-memory repository, when every record under the task
    prefix is stored under the ID of the task it decodes to, after
    deleteClusterTasks the listing of that cluster is empty, the listing of
    every other cluster is what it was, no cluster record has changed and the
    store is still keyed by task ID. *)
Theorem deleteClusterTasks_then_listing h (name : string) (w : inmem.World) :
  store.keyedByID unmarshalTask Prefix (inmem.records w) →
  let w' := world (exec inmem.env (deleteClusterTasks h name) w) in
  value (exec inmem.env (getKubeTasks h name) w') = Ok []
  ∧ (∀ other, other ≠ name →
              value (exec inmem.env (getKubeTasks h other) w')
              = value (exec inmem.env (getKubeTasks h other) w))
  ∧ inmem.kubes w' = inmem.kubes w
  ∧ store.keyedByID unmarshalTask Prefix (inmem.records w').
Proof.
  intros Hkeyed w'.
  destruct (world_deleteClusterTasks h name w) as [Hrec Hkubes].
  destruct (listing_after_cleanup h name w w' Hkeyed Hrec)
    as (Hname & Hother & Hkeyed').
  split; [exact Hname |]. split; [exact Hother |].
  split; [exact Hkubes | exact Hkeyed'].
Qed.

(** X20.  Against the in-memory repository and kube service, with the store
    keyed by task ID: after the goroutine of deleteKube received nil for a
    cluster that exists, the cluster record is gone, the other cluster
    records are untouched, the listing of the cluster is empty and the
    listing of every other cluster is what it was. *)
Theorem deleteKubeCompletion_cleans_up h (kname : string) (w : inmem.World) :
  is_Some (inmem.kubes w !! kname) →
  store.keyedByID unmarshalTask Prefix (inmem.records w) →
  let w' := world (exec inmem.env (deleteKubeCompletion h kname None) w) in
  inmem.kubes w' !! kname = None
  ∧ (∀ other, other ≠ kname → inmem.kubes w' !! other = inmem.kubes w !! other)
  ∧ value (exec inmem.env (getKubeTasks h kname) w') = Ok []
  ∧ (∀ other, other ≠ kname →
              value (exec inmem.env (getKubeTasks h other) w')
              = value (exec inmem.env (getKubeTasks h other) w)).
Proof.
  intros [k Hk] Hkeyed w'. subst w'. unfold kube.deleteKubeCompletion.
  rewrite exec_bind, exec_call. cbn [value world inmem.env]. rewrite Hk.
  cbn [fst snd]. rewrite exec_bind. cbn [exec value world].
  set (w1 := inmem.setKubes w (delete kname (inmem.kubes w))).
  destruct (world_deleteClusterTasks h kname w1) as [Hrec Hkubes].
  assert (∀ other, value (exec inmem.env (getKubeTasks h other) w1)
                   = value (exec inmem.env (getKubeTasks h other) w)) as Hsame
    by (intros; by rewrite !exec_getKubeTasks, !scan_under).
  destruct (listing_after_cleanup h kname w1 _ Hkeyed Hrec)
    as (Hname & Hother & _).
  cbv zeta in Hkubes. rewrite Hkubes. subst w1. cbn [inmem.kubes inmem.setKubes].
  split; [apply lookup_delete_eq |].
  split; [by intros other Hne; apply lookup_delete_ne |].
  split; [exact Hname |]. intros other Hne. by rewrite Hother, Hsame.
Qed.

End StoreFacts.

(** ** What deleteClusterTasks leaves in the store *)



Section FrameFacts.

Context {W : Type}.
Variable env : ∀ c : Call, W → Ans c * W.
Variable Prefix : string.
Variable unmarshalTask : string → result workflows.Task.

Local Abbreviation inCluster := kube.inCluster.
Local Abbreviation getKubeTasks := (kube.getKubeTasks Prefix unmarshalTask).
Local Abbreviation deleteClusterTasks :=
  (kube.deleteClusterTasks Prefix unmarshalTask).
Local Abbreviation decodesTo data ts :=
  (Forall2 (λ v task, unmarshalTask v = Ok task) data ts).

(** Whether a record is, under the task prefix, a task of the cluster. *)
Local Abbreviation taskRecordOf clusterName r :=
  (bool_decide (r.1.1 = Prefix)
   && match unmarshalTask r.2 with
      | Ok task => inCluster clusterName task
      | Err _ => false
      end).



End FrameFacts.

(** ** The further properties at the sample data *)

Section MoreSamples.

Import inmem.

Local Abbreviation getKubeTasks := (kube.getKubeTasks Prefix unmarshalTask).
Local Abbreviation deleteClusterTasks :=
  (kube.deleteClusterTasks Prefix unmarshalTask).
Local Abbreviation deleteKubeCompletion :=
  (kube.deleteKubeCompletion Prefix unmarshalTask).
Local Abbreviation getTasks :=
  (kube.getTasks Prefix unmarshalTask encodeTaskDTOs SendNotFound
     SendUnknownError).
Local Abbreviation deleteKube :=
  (kube.deleteKube Prefix unmarshalTask marshalTask SendNotFound
     SendUnknownError FillCloudAccountCredentials registry).
Local Abbreviation deleteNode :=
  (kube.deleteNode Prefix marshalTask SendNotFound SendUnknownError
     FillCloudAccountCredentials registry).
Local Abbreviation addNode :=
  (kube.addNode decodeNodeProfiles encodeStrings NewConfig AddMaster
     FillCloudAccountCredentials).
Local Abbreviation createKube :=
  (kubeapi.createKube store.decodeKube store.ValidateStruct
     store.SendInvalidJSON store.SendValidationFailed SendUnknownError).
Local Abbreviation getKube :=
  (kubeapi.getKube store.encodeKube SendNotFound SendUnknownError).
Local Abbreviation alphaWorld := (sampleWorld "digitalocean" sampleRecords).

Lemma getKubeTasks_first_error_witness :
  value (exec env (getKubeTasks handler "beta")
           (sampleWorld "digitalocean" store.mixedRecords))
  = Err (Wrap (New "invalid character") "unmarshal task data").
Proof.
  apply (getKubeTasks_first_error env Prefix unmarshalTask handler "beta"
           (sampleWorld "digitalocean" store.mixedRecords)
           ["rec-a1"] "garbage" ["rec-b1"] [taskOf "a1" "alpha"]).
  - vm_compute; reflexivity.
  - repeat constructor.
  - vm_compute; reflexivity.
Defined.

Lemma getKubeTasks_error_cause_witness :
  ∃ e,
    Cause (Wrap (New "invalid character") "unmarshal task data") = Cause e
    ∧ IsNotFound (Wrap (New "invalid character") "unmarshal task data")
      = IsNotFound e
    ∧ (((env (RepoGetAll Prefix) (sampleWorld "digitalocean" corruptRecords)).1
        = Err e
        ∧ Wrap (New "invalid character") "unmarshal task data"
          = Wrap e "get cluster tasks")
       ∨ ∃ data v,
           (env (RepoGetAll Prefix) (sampleWorld "digitalocean" corruptRecords)).1
           = Ok data
           ∧ v ∈ data ∧ unmarshalTask v = Err e
           ∧ Wrap (New "invalid character") "unmarshal task data"
             = Wrap e "unmarshal task data").
Proof.
  apply (getKubeTasks_error_cause env Prefix unmarshalTask handler "alpha"
           (sampleWorld "digitalocean" corruptRecords)).
  vm_compute; reflexivity.
Defined.

Lemma getTasks_listing_error_witness :
  value (exec env (getTasks handler (request "" "") http.NewRecorder)
           (sampleWorld "digitalocean" corruptRecords))
  = http.Error
      (SendUnknownError http.NewRecorder
         (Wrap (New "invalid character") "unmarshal task data"))
      "" http.StatusNotFound
  ∧ http.Code
      (value (exec env (getTasks handler (request "" "") http.NewRecorder)
                (sampleWorld "digitalocean" corruptRecords))) = 500.
Proof.
  destruct (getTasks_listing_error env Prefix unmarshalTask encodeTaskDTOs
              SendNotFound SendUnknownError handler (request "" "")
              http.NewRecorder (sampleWorld "digitalocean" corruptRecords)
              "alpha" (Wrap (New "invalid character") "unmarshal task data"))
    as (_ & Hunknown); try (vm_compute; reflexivity).
  destruct (Hunknown eq_refl) as (Hresp & Hwritten).
  split; [exact Hresp |]. exact (proj1 (Hwritten eq_refl)).
Defined.

Lemma getTasks_reads_once_witness :
  (value (exec env (getTasks handler (store.bareRequest "") http.NewRecorder)
            alphaWorld)
   = http.Error http.NewRecorder "need name of a cluster" http.StatusBadRequest
   ∧ trace (exec env (getTasks handler (store.bareRequest "") http.NewRecorder)
              alphaWorld) = [])
  ∧ world (exec env (getTasks handler (request "" "") http.NewRecorder)
             alphaWorld) = alphaWorld.
Proof.
  split.
  - destruct (getTasks_reads_once env Prefix unmarshalTask encodeTaskDTOs
                SendNotFound SendUnknownError handler (store.bareRequest "")
                http.NewRecorder alphaWorld) as (Hnone & _).
    destruct (Hnone eq_refl) as (Hval & Htrace & _). by split.
  - destruct (getTasks_reads_once env Prefix unmarshalTask encodeTaskDTOs
                SendNotFound SendUnknownError handler (request "" "")
                http.NewRecorder alphaWorld) as (_ & Hsome & _).
    destruct Hsome as (_ & Hworld); [by eexists |]. exact Hworld.
Defined.


Lemma deleteKube_goroutine_witness :
  (value (exec env (deleteKube handler (request "" "") http.NewRecorder)
            alphaWorld)).2
  = Some (kube.mkGoroutine "done/t1" (deleteKubeCompletion handler "alpha"))
  ∧ (value (exec env (deleteKube handler (request "" "") http.NewRecorder)
              alphaWorld)).1
    = http.WriteHeader http.NewRecorder http.StatusAccepted
  ∧ (value (exec env (deleteKube handler (request "" "") http.NewRecorder)
              (sampleWorld "aws" sampleRecords))).2 = None
  ∧ ∀ ev,
      ev ∈ trace (exec env (deleteKube handler (request "" "") http.NewRecorder)
                    (sampleWorld "aws" sampleRecords)) →
      isTaskRun ev = false.
Proof.
  assert ((value (exec env (deleteKube handler (request "" "") http.NewRecorder)
                    alphaWorld)).2
          = Some (kube.mkGoroutine "done/t1"
                    (deleteKubeCompletion handler "alpha"))) as Hsome
    by (vm_compute; reflexivity).
  assert ((value (exec env (deleteKube handler (request "" "") http.NewRecorder)
                    (sampleWorld "aws" sampleRecords))).2 = None) as Hnone
    by (vm_compute; reflexivity).
  split; [exact Hsome |]. split; [| split; [exact Hnone |]].
  - destruct (deleteKube_goroutine env Prefix unmarshalTask marshalTask
                SendNotFound SendUnknownError FillCloudAccountCredentials
                registry handler (request "" "") http.NewRecorder alphaWorld)
      as (_ & Hgo & _).
    exact (proj1 (Hgo _ Hsome)).
  - destruct (deleteKube_goroutine env Prefix unmarshalTask marshalTask
                SendNotFound SendUnknownError FillCloudAccountCredentials
                registry handler (request "" "") http.NewRecorder
                (sampleWorld "aws" sampleRecords)) as (_ & _ & Hno).
    exact (Hno Hnone).
Defined.

Lemma deleteKube_run_arguments_witness :
  TaskRun store.createdTask (configOf "alpha") "log/t1"
  ∈ callOf <$> trace (exec env
                        (deleteKube handler (request "" "") http.NewRecorder)
                        alphaWorld)
  ∧ ∃ k acc,
      (env (SvcGet "alpha") alphaWorld).1 = Ok k
      ∧ event (AccountGet (model.AccountName k)) (Ok acc)
        ∈ trace (exec env (deleteKube handler (request "" "") http.NewRecorder)
                   alphaWorld)
      ∧ FillCloudAccountCredentials acc
          {| steps.ClusterName := model.Name k;
             steps.CloudAccountName := model.AccountName k;
             steps.Credentials := ∅;
             steps.Node := node.mkNode "" |} = (configOf "alpha", None)
      ∧ event (GetWriter "t1") (Ok "log/t1")
        ∈ trace (exec env (deleteKube handler (request "" "") http.NewRecorder)
                   alphaWorld).
Proof.
  assert (TaskRun store.createdTask (configOf "alpha") "log/t1"
          ∈ callOf <$> trace (exec env
                                (deleteKube handler (request "" "")
                                   http.NewRecorder)
                                alphaWorld)) as Hrun
    by (vm_compute; repeat constructor).
  split; [exact Hrun |].
  exact (deleteKube_run_arguments env Prefix unmarshalTask marshalTask
           SendNotFound SendUnknownError FillCloudAccountCredentials registry
           handler (request "" "") http.NewRecorder alphaWorld
           store.createdTask (configOf "alpha") "log/t1" Hrun).
Defined.

Lemma deleteNode_unknown_node_witness :
  value (exec env (deleteNode handler (request "n9" "") http.NewRecorder)
           alphaWorld)
  = (http.NotFound http.NewRecorder, None)
  ∧ trace (exec env (deleteNode handler (request "n9" "") http.NewRecorder)
             alphaWorld)
    = [event (SvcGet "alpha") (Ok sampleKube)]
  ∧ world (exec env (deleteNode handler (request "n9" "") http.NewRecorder)
             alphaWorld) = alphaWorld.
Proof.
  apply (deleteNode_unknown_node env Prefix marshalTask SendNotFound
           SendUnknownError FillCloudAccountCredentials registry handler
           (request "n9" "") http.NewRecorder alphaWorld sampleKube);
    vm_compute; reflexivity.
Defined.

Lemma deleteNode_goroutine_witness :
  (value (exec env (deleteNode handler (request "n1" "") http.NewRecorder)
            alphaWorld)).2
  = Some (kube.mkGoroutine "done/t1"
            (kube.deleteNodeCompletion handler sampleKube "alpha" "n1"))
  ∧ (value (exec env (deleteNode handler (request "n1" "") http.NewRecorder)
              alphaWorld)).1
    = http.WriteHeader http.NewRecorder http.StatusAccepted
  ∧ ∃ k,
      (env (SvcGet "alpha") alphaWorld).1 = Ok k
      ∧ model.Masters k !! "n1" = None
      ∧ is_Some (model.Nodes k !! "n1").
Proof.
  assert ((value (exec env (deleteNode handler (request "n1" "") http.NewRecorder)
                    alphaWorld)).2
          = Some (kube.mkGoroutine "done/t1"
                    (kube.deleteNodeCompletion handler sampleKube "alpha" "n1")))
    as Hsome by (vm_compute; reflexivity).
  split; [exact Hsome |].
  destruct (deleteNode_goroutine env Prefix marshalTask SendNotFound
              SendUnknownError FillCloudAccountCredentials registry handler
              (request "n1" "") http.NewRecorder alphaWorld) as (_ & Hgo & _).
  destruct (Hgo _ Hsome) as (Hresp & k & Hget & Hmaster & Hnode & _).
  split; [exact Hresp |]. by exists k.
Defined.

Lemma deleteNodeCompletion_frame_witness :
  model.Nodes
    (value (exec env (kube.deleteNodeCompletion handler sampleKube "alpha" "n1"
                        (Some (New "step failed"))) alphaWorld)) !! "n2"
  = model.Nodes sampleKube !! "n2".
Proof.
  destruct (deleteNodeCompletion_frame env handler sampleKube "alpha" "n1"
              (Some (New "step failed")) alphaWorld) as (_ & Hothers & _).
  apply Hothers. discriminate.
Defined.

Lemma deleteNodeCompletion_absent_node_witness :
  model.Nodes sampleKube !! "n9" = None
  ∧ value (exec env (kube.deleteNodeCompletion handler sampleKube "alpha" "n9"
                       None) alphaWorld) = sampleKube
  ∧ SvcCreate sampleKube
    ∈ callOf <$> trace (exec env
                          (kube.deleteNodeCompletion handler sampleKube "alpha"
                             "n9" None) alphaWorld).
Proof.
  split; [vm_compute; reflexivity |].
  apply (deleteNodeCompletion_absent_node env handler sampleKube "alpha" "n9"
           None alphaWorld).
  vm_compute; reflexivity.
Defined.

Lemma addNode_bad_body_witness :
  decodeNodeProfiles "" = Err (New "EOF")
  ∧ (trace (exec env (addNode handler (request "" "") http.NewRecorder)
              alphaWorld)
     = [event (SvcGet "alpha") (Ok sampleKube)]
     ∧ value (exec env (addNode handler (request "" "") http.NewRecorder)
                alphaWorld)
       = http.Error http.NewRecorder (Error (New "EOF")) http.StatusBadRequest)
  ∧ (trace (exec env (addNode handler (request "" "") http.NewRecorder)
              emptyWorld)
     = [event (SvcGet "alpha") (Err ErrNotFound)]
     ∧ value (exec env (addNode handler (request "" "") http.NewRecorder)
                emptyWorld)
       = http.NotFound http.NewRecorder).
Proof.
  split; [vm_compute; reflexivity |]. split.
  - destruct (addNode_bad_body env decodeNodeProfiles encodeStrings NewConfig
                AddMaster FillCloudAccountCredentials handler (request "" "")
                http.NewRecorder alphaWorld (New "EOF"))
      as (Htrace & _ & Hval); [vm_compute; reflexivity |].
    split; [exact Htrace | exact Hval].
  - destruct (addNode_bad_body env decodeNodeProfiles encodeStrings NewConfig
                AddMaster FillCloudAccountCredentials handler (request "" "")
                http.NewRecorder emptyWorld (New "EOF"))
      as (Htrace & _ & Hval); [vm_compute; reflexivity |].
    split; [exact Htrace | exact Hval].
Defined.

Lemma addNode_no_master_witness :
  value (exec env (addNode handler (request "" "[{}]") http.NewRecorder)
           store.masterlessWorld)
  = http.Error http.NewRecorder "no master found" http.StatusNotFound
  ∧ trace (exec env (addNode handler (request "" "[{}]") http.NewRecorder)
             store.masterlessWorld)
    = [event (SvcGet "alpha") (Ok store.masterless);
       event (AccountGet "acc") (Ok (sampleAccount "digitalocean"))].
Proof.
  apply (addNode_no_master env decodeNodeProfiles encodeStrings NewConfig
           AddMaster FillCloudAccountCredentials handler (request "" "[{}]")
           http.NewRecorder store.masterlessWorld store.masterless [∅]
           (sampleAccount "digitalocean"));
    vm_compute; reflexivity.
Defined.

Lemma addNode_provision_arguments_witness :
  ProvisionNodes [∅] sampleKube (configOf "alpha")
  ∈ callOf <$> trace (exec env
                        (addNode handler (request "" "[{}]") http.NewRecorder)
                        alphaWorld)
  ∧ (env (SvcGet "alpha") alphaWorld).1 = Ok sampleKube
  ∧ decodeNodeProfiles "[{}]" = Ok [∅]
  ∧ size (model.Masters sampleKube) ≠ 0%nat.
Proof.
  assert (ProvisionNodes [∅] sampleKube (configOf "alpha")
          ∈ callOf <$> trace (exec env
                                (addNode handler (request "" "[{}]")
                                   http.NewRecorder)
                                alphaWorld)) as Hcall
    by (vm_compute; repeat constructor).
  split; [exact Hcall |].
  destruct (addNode_provision_arguments env decodeNodeProfiles encodeStrings
              NewConfig AddMaster FillCloudAccountCredentials handler
              (request "" "[{}]") http.NewRecorder alphaWorld [∅] sampleKube
              (configOf "alpha") Hcall) as (Hget & Hbody & Hsize & _).
  by repeat split.
Defined.

Lemma addNode_only_provisions_witness :
  event (ProvisionNodes [∅] sampleKube (configOf "alpha")) (Ok ["t1"; "t2"])
  ∈ trace (exec env (addNode handler (request "" "[{}]") http.NewRecorder)
             alphaWorld)
  ∧ isProvisionNodes
      (event (ProvisionNodes [∅] sampleKube (configOf "alpha"))
             (Ok ["t1"; "t2"])) = true
  ∧ (length (List.filter isProvisionNodes
               (trace (exec env
                         (addNode handler (request "" "[{}]") http.NewRecorder)
                         alphaWorld))) ≤ 1)%nat.
Proof.
  assert (event (ProvisionNodes [∅] sampleKube (configOf "alpha"))
                (Ok ["t1"; "t2"])
          ∈ trace (exec env (addNode handler (request "" "[{}]") http.NewRecorder)
                     alphaWorld)) as Hev
    by (vm_compute; repeat constructor).
  destruct (addNode_only_provisions env decodeNodeProfiles encodeStrings
              NewConfig AddMaster FillCloudAccountCredentials handler
              (request "" "[{}]") http.NewRecorder alphaWorld)
    as (Honly & Honce).
  split; [exact Hev |]. split; [exact (Honly _ Hev eq_refl) | exact Honce].
Defined.

Lemma createKube_validates_first_witness :
  (trace (exec env (createKube handler (store.bareRequest "alpha")
                      http.NewRecorder) emptyWorld)
   = [event (SvcCreate sampleKube) None]
   ∧ value (exec env (createKube handler (store.bareRequest "alpha")
                        http.NewRecorder) emptyWorld)
     = http.WriteHeader http.NewRecorder http.StatusAccepted)
  ∧ (trace (exec env (createKube handler (store.bareRequest "{")
                        http.NewRecorder) emptyWorld) = []
     ∧ world (exec env (createKube handler (store.bareRequest "{")
                          http.NewRecorder) emptyWorld) = emptyWorld).
Proof.
  split.
  - destruct (createKube_validates_first env store.decodeKube
                store.ValidateStruct store.SendInvalidJSON
                store.SendValidationFailed SendUnknownError handler
                (store.bareRequest "alpha") http.NewRecorder emptyWorld)
      as (_ & _ & Hvalid & _).
    apply (Hvalid sampleKube); vm_compute; reflexivity.
  - destruct (createKube_validates_first env store.decodeKube
                store.ValidateStruct store.SendInvalidJSON
                store.SendValidationFailed SendUnknownError handler
                (store.bareRequest "{") http.NewRecorder emptyWorld)
      as (_ & _ & _ & _ & Hbad).
    destruct (Hbad (New "unexpected end of JSON input")) as (Htr & Hw & _);
      [vm_compute; reflexivity |].
    by split.
Defined.

Lemma getKube_reads_once_witness :
  value (exec env (getKube handler (request "" "") http.NewRecorder) alphaWorld)
  = http.Write http.NewRecorder "kube:alpha"
  ∧ http.Code
      (value (exec env (getKube handler (request "" "") http.NewRecorder)
                alphaWorld)) = 200
  ∧ value (exec env (getKube handler (request "" "") http.NewRecorder) emptyWorld)
    = SendNotFound http.NewRecorder "alpha" ErrNotFound.
Proof.
  destruct (getKube_reads_once env store.encodeKube SendNotFound
              SendUnknownError handler (request "" "") http.NewRecorder
              alphaWorld) as (_ & _ & Hfound & _).
  destruct (Hfound sampleKube "kube:alpha") as (Hval & Hfresh);
    try (vm_compute; reflexivity).
  split; [exact Hval |]. split; [exact (proj1 (Hfresh eq_refl)) |].
  destruct (getKube_reads_once env store.encodeKube SendNotFound
              SendUnknownError handler (request "" "") http.NewRecorder
              emptyWorld) as (_ & _ & _ & Hmissing).
  apply (Hmissing ErrNotFound); vm_compute; reflexivity.
Defined.

Lemma sampleRecords_keyedByID :
  store.keyedByID unmarshalTask Prefix (records alphaWorld).
Proof.
  split.
  - apply (bool_decide_unpack _). vm_compute. exact I.
  - intros key v Hin. vm_compute in Hin. split_trace Hin.
    all: injection Hin as -> ->; eexists; split; vm_compute; reflexivity.
Qed.

Lemma deleteClusterTasks_then_listing_witness :
  store.keyedByID unmarshalTask Prefix (records alphaWorld)
  ∧ value (exec env (getKubeTasks handler "alpha")
             (world (exec env (deleteClusterTasks handler "alpha") alphaWorld)))
    = Ok []
  ∧ value (exec env (getKubeTasks handler "beta")
             (world (exec env (deleteClusterTasks handler "alpha") alphaWorld)))
    = value (exec env (getKubeTasks handler "beta") alphaWorld).
Proof.
  split; [exact sampleRecords_keyedByID |].
  destruct (deleteClusterTasks_then_listing Prefix unmarshalTask handler
              "alpha" alphaWorld sampleRecords_keyedByID)
    as (Hname & Hother & _).
  split; [exact Hname |]. apply Hother. discriminate.
Defined.

Lemma deleteKubeCompletion_cleans_up_witness :
  is_Some (kubes alphaWorld !! "alpha")
  ∧ kubes (world (exec env (deleteKubeCompletion handler "alpha" None)
                    alphaWorld)) !! "alpha" = None
  ∧ value (exec env (getKubeTasks handler "alpha")
             (world (exec env (deleteKubeCompletion handler "alpha" None)
                       alphaWorld))) = Ok []
  ∧ value (exec env (getKubeTasks handler "beta")
             (world (exec env (deleteKubeCompletion handler "alpha" None)
                       alphaWorld)))
    = value (exec env (getKubeTasks handler "beta") alphaWorld).
Proof.
  assert (is_Some (kubes alphaWorld !! "alpha")) as Hsome by by eexists.
  split; [exact Hsome |].
  destruct (deleteKubeCompletion_cleans_up Prefix unmarshalTask handler
              "alpha" alphaWorld Hsome sampleRecords_keyedByID)
    as (Hgone & _ & Hname & Hother).
  split; [exact Hgone |]. split; [exact Hname |]. apply Hother. discriminate.
Defined.


(** Without the keys being the task IDs the clean-up hits the wrong record:
    with the task of beta stored under the key a1 and the task a1 of alpha
    under the key zz, it deletes the key a1 and so the record of beta, and
    keeps the record of alpha. *)
Example deleteClusterTasks_misKeyed :
  records (world (exec env (deleteClusterTasks handler "alpha")
                    (sampleWorld "digitalocean" store.misKeyedRecords)))
  = [(Prefix, "zz", "rec-a1")].
Proof. vm_compute. reflexivity. Qed.

(** C5 does not hold for every deleteNode request: on a cluster whose account
    is at a provider without an entry in the workflow map, a request that
    names a master is answered 405, not 404, before the account is looked
    up. *)
Lemma deleteNode_master_on_unsupported_provider :
  kubes (sampleWorld "aws" sampleRecords) !! "alpha" = Some sampleKube
  ∧ accounts (sampleWorld "aws" sampleRecords) !! model.AccountName sampleKube
    = Some (sampleAccount "aws")
  ∧ kube.workflowMap handler !! model.Provider (sampleAccount "aws") = None
  ∧ is_Some (model.Masters sampleKube !! "m1")
  ∧ value (exec env (deleteNode handler (request "m1" "") http.NewRecorder)
             (sampleWorld "aws" sampleRecords))
    = (http.Error http.NewRecorder "delete master node not allowed"
         http.StatusMethodNotAllowed, None)
  ∧ http.Code
      (value (exec env (deleteNode handler (request "m1" "") http.NewRecorder)
                (sampleWorld "aws" sampleRecords))).1 ≠ 404.
Proof.
  do 3 (split; [vm_compute; reflexivity |]). split; [by eexists |].
  split; [vm_compute; reflexivity |]. vm_compute. discriminate.
Qed.

End MoreSamples.
